(** * Autostake: the scheduling and retry engine of src/autostake/index.mjs

    A shallow embedding of [Autostake]: [run], [runWithRetry], [logResults],
    [logSummary], [getNetworkRunner] and [getSigner].  The collaborators the
    module imports (Network, Wallet, NetworkRunner, Health, the helpers) are
    not part of it; what they answer is read from an abstract [World], and
    every call the module makes on them is recorded as an [Event].  The
    module is modelled for a mnemonic that is present, and for collaborators
    that raise only where the module itself expects it ([network.load], a
    missing REST URL, a runner's [run]) or where the data the module hands
    them decides it (a coin type that is no raw index). *)

From Stdlib Require Import List String ZArith Lia Bool DecimalString.
From Equations Require Import Equations.
Import ListNotations.

Open Scope string_scope.
Open Scope Z_scope.

(** ** JavaScript values the module inspects *)

(** A template literal [`${n}`] of an integer. *)
Definition decimal (z : Z) : string := NilZero.string_of_int (Z.to_int z).

(** Truthiness of a string: only the empty string is falsy. *)
Definition truthy (s : string) : bool := negb (String.eqb s "").

(** Truthiness of a value that is either undefined or a string. *)
Definition truthy_opt (v : option string) : bool :=
  match v with
  | Some s => truthy s
  | None => false
  end.

(** [array.includes(x)] on an array of strings. *)
Definition includes (array : list string) (x : string) : bool :=
  existsb (String.eqb x) array.

(** [array[array.length - 1]]: undefined on the empty array. *)
Definition lastOf {A} (array : list A) : option A :=
  match rev array with
  | [] => None
  | x :: _ => Some x
  end.

(** ** Data model *)

(** The [autostake] block of a network's configuration. *)
Record AutostakeConfig := {
  retries : option Z;
  slip44 : option Z;
  correctSlip44 : bool }.

(** One entry of networks.json after the local overrides. *)
Record NetworkData := {
  name : string;
  enabled : option bool;
  autostake : option AutostakeConfig;
  healthCheck : option string }.

(** One entry of a runner's [results]. *)
Record TxResult := {
  message : string;
  error : option string }.

(** What a runner shows once its [run] has settled.  [run] is called once on
    every runner, and nothing else changes a runner, so the runners an
    attempt history holds are these settled values. *)
Record NetworkRunner := {
  run_threw : option string;        (* run rejected, with this e.message *)
  didSucceed : bool;
  error_message : option string;    (* networkRunner.error?.message *)
  forceFail : bool;
  results : list TxResult;
  failedAddresses : list string;
  queryErrors : list string }.

(** The argument [limitAddresses?.length && limitAddresses] of
    [networkRunner.run]. *)
Inductive RunArg :=
| ArgUndefined                       (* there was no last runner *)
| ArgZero                            (* [].length, the number 0 *)
| ArgAddresses (addresses : list string).

(** [new Health(data.healthCheck, { dryRun: opts.dryRun })]. *)
Record Health := {
  config : option string;
  dryRun : bool }.

Inductive HealthCall :=
| started (args : list string)
| log (args : list string)
| addLogs (logs : list string)
| success (args : list string)
| failed (args : list string)
| sendLog.

(** Every call on a collaborator, in the order the module makes them. *)
Inductive Event :=
| TimeStamp (args : list string)
| OnHealth (health : Health) (call : HealthCall)
| NetworkLoad (data : NetworkData)       (* new Network(data).load() *)
| Run (data : NetworkData) (arg : RunArg) (settled : NetworkRunner)
| SetTimeout (ms : option Z).          (* None: Math.random() * 31 seconds *)

Inductive Exn :=
| TypeError (msg : string)
| Error (msg : string).

Definition exn_message (e : Exn) : string :=
  match e with
  | TypeError msg => msg
  | Error msg => msg
  end.

Inductive Completion (A : Type) :=
| Returned (a : A)
| Thrown (e : Exn).
Arguments Returned {A} a.
Arguments Thrown {A} e.

(** What [runWithRetry] resolves to: the sentinel [true], or [runners]. *)
Inductive RetryResult :=
| RTrue
| RRunners (runners : list NetworkRunner).

(** A runner before its [run]: given the argument, [run] changes the world
    and leaves the runner settled. *)
Definition RunnerHandle (World : Type) : Type :=
  RunArg -> World -> NetworkRunner * World.

(** What Network and Wallet answer during one [getNetworkRunner]. *)
Record Loaded (World : Type) := {
  loads : bool;                      (* network.load() resolved *)
  prettyName : string;
  chain_slip44 : option Z;           (* network.slip44 *)
  botAddress : string;
  operator : bool;                   (* getOperatorByBotAddress found one *)
  authzSupport : bool;
  restUrl : option string;           (* after network.connect() *)
  usingDirectory : bool;
  newNetworkRunner : RunnerHandle World }.
Arguments loads {World} _.
Arguments prettyName {World} _.
Arguments chain_slip44 {World} _.
Arguments botAddress {World} _.
Arguments operator {World} _.
Arguments authzSupport {World} _.
Arguments restUrl {World} _.
Arguments usingDirectory {World} _.
Arguments newNetworkRunner {World} _.

(** Everything outside the module: the state of the world, what the
    collaborators answer in it, and the [opts] given to [Autostake]. *)
Class Environment := {
  World : Type;
  (* new Network(data), network.load() and the later reads *)
  loadNetwork : NetworkData -> World -> Loaded World * World;
  (* JSON.parse of src/networks.json *)
  networksJson : World -> list NetworkData;
  (* src/networks.local.json applied with overrideNetworks, or the message
     of the error that reading and parsing it raised *)
  networksLocal : World -> list NetworkData + string;
  opts_dryRun : bool }.

Section Autostake.

Context {env : Environment}.

(** An async function: it reads and changes the world, returns or throws,
    and emits the events of its calls. *)
Definition M (A : Type) : Type := World -> Completion A * World * list Event.

Definition ret {A} (a : A) : M A := fun w => (Returned a, w, []).

Definition throw {A} (e : Exn) : M A := fun w => (Thrown e, w, []).

Definition bind {A B} (m : M A) (k : A -> M B) : M B :=
  fun w =>
    match m w with
    | (Returned a, w1, evs1) =>
        match k a w1 with
        | (c, w2, evs2) => (c, w2, (evs1 ++ evs2)%list)
        end
    | (Thrown e, w1, evs1) => (Thrown e, w1, evs1)
    end.

(** [try { m } catch (e) { ... }], with the exception handed to the caller. *)
Definition catching {A} (m : M A) : M (Completion A) :=
  fun w =>
    match m w with
    | (c, w1, evs1) => (Returned c, w1, evs1)
    end.

Definition emit (e : Event) : M unit := fun w => (Returned tt, w, [e]).

Notation "x <- m ;; k" := (bind m (fun x => k))
  (at level 100, m at next level, right associativity).
Notation "m ;;; k" := (bind m (fun _ => k))
  (at level 100, right associativity).

Definition timeStamp (args : list string) : M unit := emit (TimeStamp args).

Definition call (health : Health) (c : HealthCall) : M unit :=
  emit (OnHealth health c).

(** ** logSummary *)

(** The loop [for (let [index, result] of results.entries())]. *)
Fixpoint logEntries (health : Health) (index : Z) (entries : list TxResult)
  : M unit :=
  match entries with
  | [] => ret tt
  | result :: rest =>
      call health (log ["TX " ++ decimal (index + 1) ++ ":"; message result]) ;;;
      logEntries health (index + 1) rest
  end.

Definition logSummary (health : Health) (networkRunner : NetworkRunner)
  : M unit :=
  let results := results networkRunner in
  let errors := filter (fun result => truthy_opt (error result)) results in
  call health
    (log ["Sent "
          ++ decimal (Z.of_nat (List.length results) - Z.of_nat (List.length errors))
          ++ "/" ++ decimal (Z.of_nat (List.length results))
          ++ " transactions"]) ;;;
  logEntries health 0 results.

(** ** logResults *)

(** [networkRunner] is undefined when construction threw; reading a method
    of undefined is a TypeError. *)
Definition logResults (health : Health) (networkRunner : option NetworkRunner)
    (error message : option string) : M unit :=
  match networkRunner with
  | None =>
      throw (TypeError
        "Cannot read properties of undefined (reading 'queryErrors')")
  | Some networkRunner =>
      call health (addLogs (queryErrors networkRunner)) ;;;
      logSummary health networkRunner ;;;
      (match error with
       | Some e =>
           if truthy e then call health (log ["Failed with error: " ++ e])
           else ret tt
       | None => ret tt
       end) ;;;
      (match message with
       | Some m => if truthy m then call health (log [m]) else ret tt
       | None => ret tt
       end) ;;;
      call health sendLog
  end.

(** ** getSigner and getNetworkRunner *)

Definition orDefault (v : option Z) (d : Z) : Z :=
  match v with
  | Some z => if Z.eqb z 0 then d else z
  | None => d
  end.

(** [Slip10RawIndex] of @cosmjs/crypto: a raw index is a uint32, and its
    constructor throws on a number out of that range. *)
Definition uint32 (input : Z) : Completion Z :=
  if (input <? 0) || (4294967295 <? input) then
    Thrown (Error ("Input not in uint32 range: " ++ decimal input))
  else Returned input.

(** [Slip10RawIndex.hardened]: the index plus 2 ** 31. *)
Definition hardened (hardenedIndex : Z) : Completion Z :=
  uint32 (hardenedIndex + 2147483648).

(** [Slip10RawIndex.normal]. *)
Definition normal (normalIndex : Z) : Completion Z := uint32 normalIndex.

(** [component.isHardened()]. *)
Definition isHardened (component : Z) : bool := 2147483648 <=? component.

(** [pathToString]: "m", then every component after a slash, a hardened
    one as its unhardened number and a quote. *)
Definition pathToString (path : list Z) : string :=
  fold_left
    (fun current component =>
       current ++ "/"
       ++ (if isHardened component
           then decimal (component - 2147483648) ++ "'"
           else decimal component))
    path "m".

(** Evaluating an expression that returns or throws, and going on with its
    value. *)
Definition andThen {A B} (c : Completion A) (k : A -> Completion B)
  : Completion B :=
  match c with
  | Returned a => k a
  | Thrown e => Thrown e
  end.

(** The array [hdPath] of [getSigner]; building it throws when [slip44] is
    no hardened index. *)
Definition hdPath (slip44 : Z) : Completion (list Z) :=
  andThen (hardened 44) (fun purpose =>
  andThen (hardened slip44) (fun coin =>
  andThen (hardened 0) (fun account =>
  andThen (normal 0) (fun change =>
  andThen (normal 0) (fun index =>
  Returned [purpose; coin; account; change; index]))))).

(** An expression that returns or throws, as a step of an async function. *)
Definition settle {A} (c : Completion A) : M A := fun w => (c, w, []).

(** Returns the [slip44] of [{ signer, slip44 }]; the signer is opaque. *)
Definition getSigner (data : NetworkData) (network : Loaded World) : M Z :=
  let eth :=
    match chain_slip44 network with
    | Some z => Z.eqb z 60
    | None => false
    end in
  let correct :=
    match autostake data with
    | Some a => correctSlip44 a
    | None => false
    end in
  slip44 <-
    (if correct || eth then
       (if eth then timeStamp ["Found ETH coin type"] else ret tt) ;;;
       ret (orDefault (chain_slip44 network) 118)
     else
       ret (orDefault
              (match autostake data with
               | Some a => slip44 a
               | None => None
               end) 118)) ;;
  path <- settle (hdPath slip44) ;;
  (if Z.eqb slip44 118 then ret tt
   else timeStamp ["Using HD Path"; pathToString path]) ;;;
  ret slip44.

(** Resolves to a runner, or to undefined (what [timeStamp] returns). *)
Definition getNetworkRunner (data : NetworkData)
  : M (option (RunnerHandle World)) :=
  fun w =>
    let (network, w1) := loadNetwork data w in
    (emit (NetworkLoad data) ;;;
     if negb (loads network) then
       throw (Error "Unable to load network data for")
     else
       timeStamp ["Loaded"; prettyName network] ;;;
       slip44 <- getSigner data network ;;
       timeStamp ["Bot address is"; botAddress network] ;;;
       (match chain_slip44 network with
        | Some z =>
            if negb (Z.eqb z 0) && negb (Z.eqb z slip44) then
              timeStamp
                ["!! You are not using the preferred derivation path !!"] ;;;
              timeStamp
                ["!! You should switch to the correct path unless you have grants. Check the README !!"]
            else ret tt
        | None => ret tt
        end) ;;;
       if negb (operator network) then
         timeStamp ["Not an operator"] ;;; ret None
       else if negb (authzSupport network) then
         timeStamp ["No Authz support"] ;;; ret None
       else if negb (truthy_opt (restUrl network)) then
         throw (Error "Could not connect to REST API")
       else
         timeStamp ["Using REST URL";
                    match restUrl network with Some u => u | None => "" end] ;;;
         (if usingDirectory network then
            timeStamp
              ["You are using public nodes, script may fail with many delegations. Check the README to use your own"] ;;;
            timeStamp ["Delaying briefly to reduce load..."] ;;;
            emit (SetTimeout None)
          else ret tt) ;;;
         ret (Some (newNetworkRunner network)))
    w1.

(** ** runWithRetry *)

(** [data.autostake?.retries ?? 2]. *)
Definition maxRetries (data : NetworkData) : Z :=
  match autostake data with
  | Some a =>
      match retries a with
      | Some r => r
      | None => 2
      end
  | None => 2
  end.

(** [limitAddresses?.length && limitAddresses], where
    [limitAddresses = lastRunner?.failedAddresses()]. *)
Definition limitArg (lastRunner : option NetworkRunner) : RunArg :=
  match lastRunner with
  | None => ArgUndefined
  | Some r =>
      match failedAddresses r with
      | [] => ArgZero
      | limitAddresses => ArgAddresses limitAddresses
      end
  end.

(** [await networkRunner.run(arg)]. *)
Definition runRunner (data : NetworkData) (handle : RunnerHandle World)
    (arg : RunArg) : M NetworkRunner :=
  fun w =>
    let (settled, w1) := handle arg w in
    (Returned settled, w1, [Run data arg settled]).

(** How the [try]/[catch] block of [runWithRetry] is left: by one of its
    [return]s, or by falling through with [networkRunner], the [runners]
    array and [error] as they then are. *)
Inductive Settled :=
| Return (result : RetryResult)
| Fallthrough (networkRunner : option NetworkRunner)
              (runners : list NetworkRunner) (error : option string).

Definition attempt (data : NetworkData) (health : Health)
    (runners : list NetworkRunner) : M Settled :=
  let lastRunner := lastOf runners in
  constructed <- catching (getNetworkRunner data) ;;
  match constructed with
  | Thrown e => ret (Fallthrough None runners (Some (exn_message e)))
  | Returned None => ret (Return RTrue)
  | Returned (Some handle) =>
      networkRunner <- runRunner data handle (limitArg lastRunner) ;;
      let runners := (runners ++ [networkRunner])%list in
      match run_threw networkRunner with
      | Some msg => ret (Fallthrough (Some networkRunner) runners (Some msg))
      | None =>
          if didSucceed networkRunner then
            logResults health (Some networkRunner) None None ;;;
            ret (Return (RRunners runners))
          else
            ret (Fallthrough (Some networkRunner) runners
                   (error_message networkRunner))
      end
  end.

(** [!networkRunner.forceFail]; a TypeError when [networkRunner] is
    undefined. *)
Definition notForceFail (networkRunner : option NetworkRunner) : M bool :=
  match networkRunner with
  | None =>
      throw (TypeError
        "Cannot read properties of undefined (reading 'forceFail')")
  | Some r => ret (negb (forceFail r))
  end.

Equations? runWithRetry (data : NetworkData) (health : Health)
    (retries : Z) (runners : list NetworkRunner) : M RetryResult
    by wf (Z.to_nat (maxRetries data - retries)) lt :=
  runWithRetry data health retries runners :=
    settled <- attempt data health runners ;;
    match settled with
    | Return result => ret result
    | Fallthrough networkRunner runners error =>
        match Z_lt_dec retries (maxRetries data) with
        | left _ =>
            retry <- notForceFail networkRunner ;;
            if retry then
              logResults health networkRunner error
                (Some ("Failed attempt " ++ decimal (retries + 1) ++ "/"
                       ++ decimal (maxRetries data + 1)
                       ++ ", retrying in 30 seconds...")) ;;;
              emit (SetTimeout (Some (30 * 1000))) ;;;
              runWithRetry data health (retries + 1) runners
            else
              logResults health networkRunner error None ;;;
              ret (RRunners runners)
        | right _ =>
            logResults health networkRunner error None ;;;
            ret (RRunners runners)
        end
    end.
Proof. lia. Qed.

(** ** run *)

Definition getNetworksData : M (list NetworkData) :=
  fun w =>
    match networksLocal w with
    | inl overridden => (Returned overridden, w, [])
    | inr msg =>
        (Returned (networksJson w), w,
         [TimeStamp
            ["Failed to parse networks.local.json, check JSON is valid"; msg]])
    end.

(** The loop [for (const name of networkNames)]: the name it returns on. *)
Fixpoint invalidName (configured networkNames : list string)
  : option string :=
  match networkNames with
  | [] => None
  | name :: rest =>
      if truthy name && negb (includes configured name) then Some name
      else invalidName configured rest
  end.

(** [networkNames && networkNames.length
     && !networkNames.includes(data.name)]. *)
Definition filteredOut (networkNames : option (list string))
    (data : NetworkData) : bool :=
  match networkNames with
  | None => false
  | Some names =>
      negb (Nat.eqb (List.length names) 0) && negb (includes names (name data))
  end.

(** [data.enabled === false]. *)
Definition disabled (data : NetworkData) : bool :=
  match enabled data with
  | Some false => true
  | _ => false
  end.

(** The [results.forEach] of the attempt log. *)
Fixpoint logAttempts (health : Health) (index : Z)
    (results : list NetworkRunner) : M unit :=
  match results with
  | [] => ret tt
  | result :: rest =>
      call health (log ["Attempt " ++ decimal (index + 1) ++ ":"]) ;;;
      logSummary health result ;;;
      logAttempts health (index + 1) rest
  end.

(** [results[results.length - 1]]; on the sentinel [true], [true.length] is
    undefined and so is the element. *)
Definition lastResult (results : RetryResult) : option NetworkRunner :=
  match results with
  | RTrue => None
  | RRunners runners => lastOf runners
  end.

(** [new Health(data.healthCheck, { dryRun: opts.dryRun })]. *)
Definition newHealth (data : NetworkData) : Health :=
  {| config := healthCheck data; dryRun := opts_dryRun |}.

(** The closure [run] builds for one network, past its two guards. *)
Definition processNetwork (data : NetworkData) : M unit :=
  let health := newHealth data in
  call health (started ["⚛"]) ;;;
  results <- runWithRetry data health 0 [] ;;
  (match results with
   | RRunners runners =>
       call health
         (log ["Autostake completed in "
               ++ decimal (Z.of_nat (List.length runners))
               ++ " attempt(s)"]) ;;;
       logAttempts health 0 runners
   | RTrue => ret tt
   end) ;;;
  match lastResult results with
  | None =>
      throw (TypeError
        "Cannot read properties of undefined (reading 'didSucceed')")
  | Some lastResult =>
      if didSucceed lastResult then
        call health (success ["Autostake finished"])
      else
        call health (failed ["Autostake failed"])
  end.

(** The async closure [run] builds for one network. *)
Definition networkCall (networkNames : option (list string))
    (data : NetworkData) : M unit :=
  if filteredOut networkNames data then ret tt
  else if disabled data then ret tt
  else processNetwork data.

(** Modelled from the spec: [executeSync] of utils/Helpers.mjs, which is not
    part of this module.  With a batch size of 1 the calls are awaited
    strictly one after the other, in order; a call that rejects rejects the
    await, so the calls after it are not made. *)
Fixpoint executeSync (calls : list (M unit)) (count : Z) : M unit :=
  match calls with
  | [] => ret tt
  | c :: rest => c ;;; executeSync rest count
  end.

(** [networkNames] is [None] when the caller passes undefined. *)
Definition run (networkNames : option (list string)) : M unit :=
  networks <- getNetworksData ;;
  match networkNames with
  | None => throw (TypeError "networkNames is not iterable")
  | Some names =>
      match invalidName (map name networks) names with
      | Some name => timeStamp ["Invalid network name:"; name]
      | None => executeSync (map (networkCall networkNames) networks) 1
      end
  end.

(** ** What a run shows *)

(** The networks [network.load()] was called for, in order. *)
Definition loadsOf (evs : list Event) : list NetworkData :=
  flat_map (fun e => match e with NetworkLoad d => [d] | _ => [] end) evs.

(** The argument and the settled runner of every [networkRunner.run]. *)
Definition runsOf (evs : list Event) : list (RunArg * NetworkRunner) :=
  flat_map (fun e => match e with Run _ a r => [(a, r)] | _ => [] end) evs.

(** The calls made on health reporters, in order. *)
Definition healthOf (evs : list Event) : list HealthCall :=
  flat_map (fun e => match e with OnHealth _ c => [c] | _ => [] end) evs.

Definition isSendLog (c : HealthCall) : bool :=
  match c with
  | sendLog => true
  | _ => false
  end.

Definition isTerminal (c : HealthCall) : bool :=
  match c with
  | success _ | failed _ => true
  | _ => false
  end.

(** How many times [sendLog] flushed a report. *)
Definition flushes (evs : list Event) : nat :=
  List.length (filter isSendLog (healthOf evs)).

(** How many times [success] or [failed] was called. *)
Definition terminals (evs : list Event) : nat :=
  List.length (filter isTerminal (healthOf evs)).

(** A computation that only logs: it returns, leaves the world as it is and
    emits [evs], whatever the world. *)
Definition logs (m : M unit) (evs : list Event) : Prop :=
  forall w, m w = (Returned tt, w, evs).

(** Events that are neither loads, runs nor health calls: console output
    and timers. *)
Definition console (evs : list Event) : Prop :=
  loadsOf evs = [] /\ runsOf evs = [] /\ healthOf evs = [].

(** A computation that returns, leaves the world as it is and emits console
    events only. *)
Definition talks {A} (m : M A) : Prop :=
  forall w, exists a evs, m w = (Returned a, w, evs) /\ console evs.

(** Events of health calls that are neither a flush nor a terminal mark. *)
Definition plain (evs : list Event) : Prop :=
  loadsOf evs = [] /\ runsOf evs = [] /\ flushes evs = 0%nat
  /\ terminals evs = 0%nat.

(** A computation that only logs plain lines. *)
Definition notes (m : M unit) : Prop :=
  exists evs, logs m evs /\ plain evs.

(** [getNetworkRunner] gets as far as [new NetworkRunner]. *)
Definition builds (network : Loaded World) : bool :=
  loads network && operator network && authzSupport network
  && truthy_opt (restUrl network).

(** The runner settles as a failure: [run] threw, or [didSucceed()] is
    false. *)
Definition reportsFailure (r : NetworkRunner) : Prop :=
  run_threw r <> None \/ didSucceed r = false.

(** *** The executions of runWithRetry

    [RetryRun data health retries runners w outcome]: called in world [w],
    [runWithRetry(data, health, retries, runners)] settles as [outcome].
    One rule per way through the function after its [try] block. *)
Inductive RetryRun (data : NetworkData) (health : Health)
  : Z -> list NetworkRunner -> World
    -> Completion RetryResult * World * list Event -> Prop :=
| retry_return retries runners w result w1 evs :
    attempt data health runners w = (Returned (Return result), w1, evs) ->
    RetryRun data health retries runners w (Returned result, w1, evs)
| retry_absent_budget retries runners w runners' error w1 evs :
    attempt data health runners w
    = (Returned (Fallthrough None runners' error), w1, evs) ->
    retries < maxRetries data ->
    RetryRun data health retries runners w
      (Thrown (TypeError
         "Cannot read properties of undefined (reading 'forceFail')"),
       w1, evs)
| retry_absent_exhausted retries runners w runners' error w1 evs :
    attempt data health runners w
    = (Returned (Fallthrough None runners' error), w1, evs) ->
    maxRetries data <= retries ->
    RetryRun data health retries runners w
      (Thrown (TypeError
         "Cannot read properties of undefined (reading 'queryErrors')"),
       w1, evs)
| retry_final retries runners w networkRunner runners' error w1 evs :
    attempt data health runners w
    = (Returned (Fallthrough (Some networkRunner) runners' error), w1, evs) ->
    maxRetries data <= retries \/ forceFail networkRunner = true ->
    RetryRun data health retries runners w
      (Returned (RRunners runners'), w1,
       (evs ++ snd (logResults health (Some networkRunner) error None w1))
       %list)
| retry_again retries runners w networkRunner runners' error w1 evs
    c w2 evs2 :
    attempt data health runners w
    = (Returned (Fallthrough (Some networkRunner) runners' error), w1, evs) ->
    retries < maxRetries data ->
    forceFail networkRunner = false ->
    RetryRun data health (retries + 1) runners' w1 (c, w2, evs2) ->
    RetryRun data health retries runners w
      (c, w2,
       (evs
        ++ snd (logResults health (Some networkRunner) error
                  (Some ("Failed attempt " ++ decimal (retries + 1) ++ "/"
                         ++ decimal (maxRetries data + 1)
                         ++ ", retrying in 30 seconds...")%string) w1)
        ++ SetTimeout (Some (30 * 1000)) :: evs2)%list).

(** Every run takes as its argument what the runner before it left as
    failed addresses; the first one what [lastRunner] left. *)
Fixpoint chained (lastRunner : option NetworkRunner)
    (runs : list (RunArg * NetworkRunner)) : Prop :=
  match runs with
  | [] => True
  | (arg, settled) :: rest =>
      arg = limitArg lastRunner /\ chained (Some settled) rest
  end.

(** The target set a run is restricted to.  A falsy argument (undefined, or
    the 0 that [[].length && []] is) restricts nothing: the runner works on
    its full target set. *)
Definition restriction (arg : RunArg) : option (list string) :=
  match arg with
  | ArgAddresses addresses => Some addresses
  | _ => None
  end.


(** Every attempt of the events got its runner: every [network.load()] was
    followed by a [run]. *)
Definition everyAttemptRan (evs : list Event) : Prop :=
  List.length (runsOf evs) = List.length (loadsOf evs).

(** *** A scheduler invocation *)

(** The networks [getNetworksData] returns in world [w]. *)
Definition configured (w : World) : list NetworkData :=
  match networksLocal w with
  | inl overridden => overridden
  | inr _ => networksJson w
  end.

(** What [getNetworksData] writes to the console in world [w]. *)
Definition configNotice (w : World) : list Event :=
  match networksLocal w with
  | inl _ => []
  | inr msg =>
      [TimeStamp
         ["Failed to parse networks.local.json, check JSON is valid"; msg]]
  end.

(** The selection of the specification: the network's name is in the
    filter, or the filter is empty or absent; and the enabled flag is not
    explicitly false. *)
Definition selected (networkNames : option (list string))
    (data : NetworkData) : bool :=
  match networkNames with
  | None | Some [] => true
  | Some names => includes names (name data)
  end
  && match enabled data with
     | Some false => false
     | _ => true
     end.

(** How many times [network.load()] was called for a network of name [n]. *)
Definition attemptsOn (n : string) (evs : list Event) : nat :=
  List.length (filter (fun d => String.eqb (name d) n) (loadsOf evs)).

(** The configuration gives no [autostake.retries]. *)
Definition retriesAbsent (data : NetworkData) : Prop :=
  match autostake data with
  | Some a => retries a = None
  | None => True
  end.

(** *** The claims a run can contradict

    Stated for one invocation, as the specification words them. *)

(** Exactly the configured networks the filter selects are processed. *)
Definition processesExactlySelected (networkNames : option (list string))
    (w : World) : Prop :=
  forall d,
    In d (configured w) ->
    (selected networkNames d = true
     <-> In d (loadsOf (snd (run networkNames w)))).

(** A requested name that matches no configured network aborts the
    invocation: nothing is loaded and no health reporter is called. *)
Definition abortsOnUnknownName (names : list string) (w : World) : Prop :=
  (exists n, In n names /\ ~ In n (map name (configured w))) ->
  loadsOf (snd (run (Some names) w)) = []
  /\ healthOf (snd (run (Some names) w)) = [].

(** A processed network flushes exactly one report. *)
Definition flushesOnce (networkNames : option (list string))
    (data : NetworkData) (w : World) : Prop :=
  flushes (snd (networkCall networkNames data w)) = 1%nat.

(** *** The summary, as the specification words it *)

Definition carriesError (result : TxResult) : bool := truthy_opt (error result).

Definition totalCount (entries : list TxResult) : Z :=
  Z.of_nat (List.length entries).

Definition successCount (entries : list TxResult) : Z :=
  totalCount entries - Z.of_nat (List.length (filter carriesError entries)).

Definition countLine (health : Health) (entries : list TxResult) : Event :=
  OnHealth health
    (log ["Sent " ++ decimal (successCount entries) ++ "/"
          ++ decimal (totalCount entries) ++ " transactions"]).

(** The detail line of the result at position [i], counted from 0. *)
Definition detailLine (health : Health) (i : nat) (result : TxResult)
  : Event :=
  OnHealth health
    (log ["TX " ++ decimal (Z.of_nat i + 1) ++ ":"; message result]).

Fixpoint detailLinesFrom (health : Health) (i : nat)
    (entries : list TxResult) : list Event :=
  match entries with
  | [] => []
  | result :: rest =>
      detailLine health i result :: detailLinesFrom health (S i) rest
  end.

Definition detailLines (health : Health) (entries : list TxResult)
  : list Event :=
  detailLinesFrom health 0 entries.

(** *** Construction, read off the answers of the collaborators *)

(** [network.data.autostake?.correctSlip44], as a boolean. *)
Definition wantsCorrectSlip44 (data : NetworkData) : bool :=
  match autostake data with
  | Some a => correctSlip44 a
  | None => false
  end.

(** [network.slip44 === 60]. *)
Definition isEth (network : Loaded World) : bool :=
  match chain_slip44 network with
  | Some z => Z.eqb z 60
  | None => false
  end.

(** The coin type [getSigner] derives the key for. *)
Definition signerSlip44 (data : NetworkData) (network : Loaded World) : Z :=
  if wantsCorrectSlip44 data || isEth network then
    orDefault (chain_slip44 network) 118
  else
    orDefault (match autostake data with
               | Some a => slip44 a
               | None => None
               end) 118.

(** The signer's coin type makes a hardened index: it is at least
    - 2 ** 31 and less than 2 ** 31. *)
Definition signable (data : NetworkData) (network : Loaded World) : bool :=
  (-2147483648 <=? signerSlip44 data network)
  && (signerSlip44 data network <? 2147483648).

(** The derivation path [getSigner] prints for a coin type that is
    signable: hardened when it is not negative. *)
Definition derivationPath (slip44 : Z) : string :=
  if 0 <=? slip44 then "m/44'/" ++ decimal slip44 ++ "'/0'/0/0"
  else "m/44'/" ++ decimal (slip44 + 2147483648) ++ "/0'/0/0".

(** How [getSigner] settles. *)
Definition signing (data : NetworkData) (network : Loaded World)
  : Completion Z :=
  andThen (hdPath (signerSlip44 data network))
    (fun _ => Returned (signerSlip44 data network)).

(** What [getSigner] writes to the console. *)
Definition signerLines (data : NetworkData) (network : Loaded World)
  : list Event :=
  ((if isEth network then [TimeStamp ["Found ETH coin type"]] else [])
   ++ match hdPath (signerSlip44 data network) with
      | Returned path =>
          if Z.eqb (signerSlip44 data network) 118 then []
          else [TimeStamp ["Using HD Path"; pathToString path]]
      | Thrown _ => []
      end)%list.

(** [getNetworkRunner] gets as far as [new NetworkRunner]: the network
    [builds] and the signer's coin type is [signable]. *)
Definition constructs (data : NetworkData) (network : Loaded World) : bool :=
  builds network && signable data network.

(** The two lines that warn about the derivation path. *)
Definition pathWarning : list Event :=
  [TimeStamp ["!! You are not using the preferred derivation path !!"];
   TimeStamp
     ["!! You should switch to the correct path unless you have grants. Check the README !!"]].

(** [network.slip44 && network.slip44 !== slip44], for the signer's
    [slip44]. *)
Definition offPreferredPath (data : NetworkData) (network : Loaded World)
  : bool :=
  match chain_slip44 network with
  | Some z => negb (Z.eqb z 0) && negb (Z.eqb z (signerSlip44 data network))
  | None => false
  end.

(** How [getNetworkRunner] settles. *)
Definition construction (data : NetworkData) (network : Loaded World)
  : Completion (option (RunnerHandle World)) :=
  if negb (loads network) then
    Thrown (Error "Unable to load network data for")
  else
    andThen (signing data network) (fun _ =>
      if negb (operator network) then Returned None
      else if negb (authzSupport network) then Returned None
      else if negb (truthy_opt (restUrl network)) then
        Thrown (Error "Could not connect to REST API")
      else Returned (Some (newNetworkRunner network))).

(** What [getNetworkRunner] writes after [network.load()]. *)
Definition constructionLines (data : NetworkData) (network : Loaded World)
  : list Event :=
  if negb (loads network) then []
  else
    (TimeStamp ["Loaded"; prettyName network]
     :: signerLines data network
     ++ (if negb (signable data network) then []
         else
           TimeStamp ["Bot address is"; botAddress network]
           :: (if offPreferredPath data network then pathWarning else [])
           ++ (if negb (operator network) then
                 [TimeStamp ["Not an operator"]]
               else if negb (authzSupport network) then
                 [TimeStamp ["No Authz support"]]
               else if negb (truthy_opt (restUrl network)) then []
               else
                 TimeStamp ["Using REST URL";
                            match restUrl network with
                            | Some u => u
                            | None => ""
                            end]
                 :: (if usingDirectory network then
                       [TimeStamp
                          ["You are using public nodes, script may fail with many delegations. Check the README to use your own"];
                        TimeStamp ["Delaying briefly to reduce load..."];
                        SetTimeout None]
                     else []))))%list.

(** *** More of what a run shows *)

(** The fixed waits between attempts, in milliseconds. *)
Definition waitsOf (evs : list Event) : list Z :=
  flat_map (fun e => match e with
                     | SetTimeout (Some ms) => [ms]
                     | _ => []
                     end) evs.

(** The lines of [logResults], for a runner that is there. *)
Definition resultLines (health : Health) (networkRunner : NetworkRunner)
    (error message : option string) : list Event :=
  (OnHealth health (addLogs (queryErrors networkRunner))
   :: countLine health (results networkRunner)
   :: detailLines health (results networkRunner)
   ++ (match error with
       | Some e =>
           if truthy e
           then [OnHealth health (log [("Failed with error: " ++ e)%string])]
           else []
       | None => []
       end)
   ++ (match message with
       | Some m => if truthy m then [OnHealth health (log [m])] else []
       | None => []
       end)
   ++ [OnHealth health sendLog])%list.

(** The attempt log of [run]: for the runner at position [i], counted from
    0, the line "Attempt i+1:" and the runner's summary. *)
Fixpoint attemptLinesFrom (health : Health) (i : nat)
    (runners : list NetworkRunner) : list Event :=
  match runners with
  | [] => []
  | r :: rest =>
      (OnHealth health
         (log [("Attempt " ++ decimal (Z.of_nat i + 1) ++ ":")%string])
       :: countLine health (results r)
       :: detailLines health (results r)
       ++ attemptLinesFrom health (S i) rest)%list
  end.

(** The terminal mark of [run], decided by the last runner. *)
Definition terminalMark (health : Health) (lastRunner : NetworkRunner)
  : Event :=
  OnHealth health
    (if didSucceed lastRunner then success ["Autostake finished"]
     else failed ["Autostake failed"]).

(** The run settled as a success: [run] resolved and [didSucceed()] is
    true. *)
Definition reportsSuccess (r : NetworkRunner) : Prop :=
  run_threw r = None /\ didSucceed r = true.

End Autostake.

(** * A concrete setting

    Five networks and collaborators that answer by the network's name. *)
Module Scene.

Definition network (n : string) (a : option AutostakeConfig) : NetworkData :=
  {| name := n; enabled := None; autostake := a; healthCheck := None |}.

Definition alpha : NetworkData := network "alpha" None.
Definition bravo : NetworkData :=
  network "bravo"
    (Some {| retries := Some 5; slip44 := None; correctSlip44 := false |}).
Definition charlie : NetworkData := network "charlie" None.
Definition echo : NetworkData := network "echo" None.
Definition foxtrot : NetworkData := network "foxtrot" None.
Definition golf : NetworkData :=
  network "golf"
    (Some {| retries := Some 0; slip44 := None; correctSlip44 := false |}).

(** india asks for coin type 330 on a chain of coin type 118; juliet is
    alpha with a negative retry ceiling. *)
Definition india : NetworkData :=
  network "india"
    (Some {| retries := None; slip44 := Some 330; correctSlip44 := false |}).
Definition juliet : NetworkData :=
  network "alpha"
    (Some {| retries := Some (-1); slip44 := None; correctSlip44 := false |}).

(** kilo asks for the coin type 2 ** 31, which makes no hardened index. *)
Definition kilo : NetworkData :=
  network "kilo"
    (Some {| retries := None; slip44 := Some 2147483648;
             correctSlip44 := false |}).

Definition settles (ok force : bool) (failures : list string)
  : NetworkRunner :=
  {| run_threw := None;
     didSucceed := ok;
     error_message := if ok then None else Some "insufficient funds";
     forceFail := force;
     results := [ {| message := "a"; error := None |};
                  {| message := "b"; error := Some "x" |} ];
     failedAddresses := failures;
     queryErrors := [] |}.

(** alpha always fails; bravo fails, then fails for good on its retry;
    every other runner succeeds. *)
Definition runner (n : string) : RunnerHandle nat :=
  fun arg w =>
    (if String.eqb n "alpha" then settles false false ["cosmos1a"]
     else if String.eqb n "bravo" then
       match arg with
       | ArgAddresses _ => settles false true ["cosmos1b"]
       | _ => settles false false ["cosmos1b"]
       end
     else settles true false [],
     w).

(** The bot is no operator on echo; foxtrot and golf have no REST URL. *)
Definition answer (data : NetworkData) : Loaded nat :=
  {| loads := true;
     prettyName := name data;
     chain_slip44 := Some 118;
     botAddress := "cosmos1bot";
     operator := negb (String.eqb (name data) "echo");
     authzSupport := true;
     restUrl := if String.eqb (name data) "foxtrot"
                   || String.eqb (name data) "golf"
                then None else Some "https://rest";
     usingDirectory := false;
     newNetworkRunner := runner (name data) |}.

(** The world counts the loads. *)
Definition scene (networks : list NetworkData) : Environment :=
  {| World := nat;
     loadNetwork := fun data w => (answer data, S w);
     networksJson := fun _ => networks;
     networksLocal := fun _ => inl networks;
     opts_dryRun := false |}.

Definition health : Health := {| config := None; dryRun := false |}.

End Scene.

(** * Properties *)

Section Properties.

Context {env : Environment}.

Local Notation "x <- m ;; k" := (bind m (fun x => k))
  (at level 100, m at next level, right associativity).
Local Notation "m ;;; k" := (bind m (fun _ => k))
  (at level 100, right associativity).

(** ** Event projections *)

Lemma loadsOf_app (a b : list Event) :
  loadsOf (a ++ b) = (loadsOf a ++ loadsOf b)%list.
Proof. apply flat_map_app. Qed.

Lemma runsOf_app (a b : list Event) :
  runsOf (a ++ b) = (runsOf a ++ runsOf b)%list.
Proof. apply flat_map_app. Qed.

Lemma healthOf_app (a b : list Event) :
  healthOf (a ++ b) = (healthOf a ++ healthOf b)%list.
Proof. apply flat_map_app. Qed.

Lemma flushes_app (a b : list Event) :
  flushes (a ++ b) = (flushes a + flushes b)%nat.
Proof.
  unfold flushes. now rewrite healthOf_app, filter_app, length_app.
Qed.

Lemma terminals_app (a b : list Event) :
  terminals (a ++ b) = (terminals a + terminals b)%nat.
Proof.
  unfold terminals. now rewrite healthOf_app, filter_app, length_app.
Qed.

Lemma loadsOf_load (d : NetworkData) (evs : list Event) :
  loadsOf (NetworkLoad d :: evs) = d :: loadsOf evs.
Proof. reflexivity. Qed.

Lemma runsOf_load (d : NetworkData) (evs : list Event) :
  runsOf (NetworkLoad d :: evs) = runsOf evs.
Proof. reflexivity. Qed.

Lemma healthOf_load (d : NetworkData) (evs : list Event) :
  healthOf (NetworkLoad d :: evs) = healthOf evs.
Proof. reflexivity. Qed.

Lemma flushes_load (d : NetworkData) (evs : list Event) :
  flushes (NetworkLoad d :: evs) = flushes evs.
Proof. reflexivity. Qed.

Lemma terminals_load (d : NetworkData) (evs : list Event) :
  terminals (NetworkLoad d :: evs) = terminals evs.
Proof. reflexivity. Qed.

Lemma loadsOf_timeout (ms : option Z) (evs : list Event) :
  loadsOf (SetTimeout ms :: evs) = loadsOf evs.
Proof. reflexivity. Qed.

Lemma runsOf_timeout (ms : option Z) (evs : list Event) :
  runsOf (SetTimeout ms :: evs) = runsOf evs.
Proof. reflexivity. Qed.

Lemma flushes_timeout (ms : option Z) (evs : list Event) :
  flushes (SetTimeout ms :: evs) = flushes evs.
Proof. reflexivity. Qed.

Lemma terminals_timeout (ms : option Z) (evs : list Event) :
  terminals (SetTimeout ms :: evs) = terminals evs.
Proof. reflexivity. Qed.

(** Pushes the projections through the shape of an event list. *)
Ltac projections :=
  rewrite ?app_nil_r;
  rewrite ?loadsOf_app, ?runsOf_app, ?healthOf_app, ?flushes_app,
    ?terminals_app;
  rewrite ?loadsOf_load, ?runsOf_load, ?healthOf_load, ?flushes_load,
    ?terminals_load, ?loadsOf_timeout, ?runsOf_timeout, ?flushes_timeout,
    ?terminals_timeout.

(** ** Computations that only log *)

Lemma logs_ret : logs (ret tt) [].
Proof. intro w. reflexivity. Qed.

Lemma logs_emit (e : Event) : logs (emit e) [e].
Proof. intro w. reflexivity. Qed.

Lemma logs_call (health : Health) (c : HealthCall) :
  logs (call health c) [OnHealth health c].
Proof. intro w. reflexivity. Qed.

Lemma logs_bind (m k : M unit) (e1 e2 : list Event) :
  logs m e1 -> logs k e2 -> logs (m ;;; k) (e1 ++ e2).
Proof.
  intros Hm Hk w. unfold bind. rewrite Hm, Hk. reflexivity.
Qed.

Lemma logs_then {A} (m : M unit) (k : M A) (e1 : list Event) (w : World) :
  logs m e1 ->
  (m ;;; k) w = (let '(c, w2, e2) := k w in (c, w2, (e1 ++ e2)%list)).
Proof.
  intros Hm. unfold bind. rewrite Hm. reflexivity.
Qed.

Lemma logEntries_logs (health : Health) (entries : list TxResult) (i : nat) :
  logs (logEntries health (Z.of_nat i) entries)
       (detailLinesFrom health i entries).
Proof.
  revert i. induction entries as [|result rest IH]; intro i; simpl.
  - apply logs_ret.
  - change (detailLine health i result :: detailLinesFrom health (S i) rest)
      with ([detailLine health i result]
            ++ detailLinesFrom health (S i) rest)%list.
    apply logs_bind.
    + apply logs_call.
    + replace (Z.of_nat i + 1) with (Z.of_nat (S i)) by lia. apply IH.
Qed.

Lemma logSummary_logs (health : Health) (networkRunner : NetworkRunner) :
  logs (logSummary health networkRunner)
       (countLine health (results networkRunner)
        :: detailLines health (results networkRunner)).
Proof.
  unfold logSummary.
  change (countLine health (results networkRunner)
          :: detailLines health (results networkRunner))
    with ([countLine health (results networkRunner)]
          ++ detailLines health (results networkRunner))%list.
  apply logs_bind.
  - apply logs_call.
  - apply (logEntries_logs health (results networkRunner) 0).
Qed.

Lemma detailLinesFrom_length (health : Health) (entries : list TxResult)
    (i : nat) :
  List.length (detailLinesFrom health i entries) = List.length entries.
Proof.
  revert i. induction entries; intro i; simpl; [reflexivity|].
  now rewrite IHentries.
Qed.

Lemma detailLinesFrom_nth (health : Health) (entries : list TxResult)
    (i k : nat) (result : TxResult) :
  nth_error entries k = Some result ->
  nth_error (detailLinesFrom health i entries) k
  = Some (detailLine health (i + k) result).
Proof.
  revert i k. induction entries as [|r rest IH]; intros i k Hk.
  - destruct k; discriminate.
  - destruct k as [|k]; simpl in *.
    + inversion Hk; subst. now rewrite Nat.add_0_r.
    + rewrite (IH (S i) k Hk). f_equal. f_equal. lia.
Qed.

(** C9.  For every ordered sequence of results, [logSummary] only logs: it
    emits the count line "Sent successCount/totalCount transactions", where
    successCount is the total minus the number of entries carrying an error
    (an entry carries an error when its [error] is truthy, the test the
    module makes), followed by exactly one detail line per result, in the
    original order, made of the ordinal label "TX i:" and the result's
    message.  The empty sequence gives "0/0" and no detail line;
    [{message:"a"}, {message:"b", error:"x"}] gives "1/2" and the two detail
    lines in that order. *)
Theorem logSummary_count_and_details :
  forall (health : Health) (networkRunner : NetworkRunner),
    let entries := results networkRunner in
    logs (logSummary health networkRunner)
         (countLine health entries :: detailLines health entries)
    /\ successCount entries
       = totalCount entries
         - Z.of_nat (List.length (filter carriesError entries))
    /\ List.length (detailLines health entries) = List.length entries
    /\ (forall i result,
          nth_error entries i = Some result ->
          nth_error (detailLines health entries) i
          = Some (OnHealth health
                    (log ["TX " ++ decimal (Z.of_nat i + 1) ++ ":";
                          message result])))
    /\ (entries = [] ->
        logs (logSummary health networkRunner)
             [OnHealth health (log ["Sent 0/0 transactions"])])
    /\ (entries = [ {| message := "a"; error := None |};
                    {| message := "b"; error := Some "x" |} ] ->
        logs (logSummary health networkRunner)
             [OnHealth health (log ["Sent 1/2 transactions"]);
              OnHealth health (log ["TX 1:"; "a"]);
              OnHealth health (log ["TX 2:"; "b"])]).
Proof.
  intros health networkRunner entries.
  pose proof (logSummary_logs health networkRunner) as Hlogs.
  fold entries in Hlogs.
  split; [exact Hlogs|].
  split; [reflexivity|].
  split; [apply detailLinesFrom_length|].
  split.
  - intros i result Hi.
    apply (detailLinesFrom_nth health entries 0 i result Hi).
  - split; intro Heq; rewrite Heq in Hlogs; exact Hlogs.
Qed.

(** ** Console output *)

Lemma console_nil : console [].
Proof. repeat split. Qed.

Lemma console_app (a b : list Event) :
  console a -> console b -> console (a ++ b).
Proof.
  intros (Ha1 & Ha2 & Ha3) (Hb1 & Hb2 & Hb3). unfold console.
  rewrite loadsOf_app, runsOf_app, healthOf_app.
  now rewrite Ha1, Ha2, Ha3, Hb1, Hb2, Hb3.
Qed.

Lemma talks_ret {A} (a : A) : talks (ret a).
Proof. intro w. exists a, []. split; [reflexivity|apply console_nil]. Qed.

Lemma talks_timeStamp (args : list string) : talks (timeStamp args).
Proof.
  intro w. exists tt, [TimeStamp args]. split; [reflexivity|].
  repeat split.
Qed.

Lemma talks_timeout (ms : option Z) : talks (emit (SetTimeout ms)).
Proof.
  intro w. exists tt, [SetTimeout ms]. split; [reflexivity|].
  repeat split.
Qed.

Lemma talks_bind {A B} (m : M A) (k : A -> M B) :
  talks m -> (forall a, talks (k a)) -> talks (x <- m ;; k x).
Proof.
  intros Hm Hk w. destruct (Hm w) as (a & e1 & Em & C1).
  destruct (Hk a w) as (b & e2 & Ek & C2).
  exists b, (e1 ++ e2)%list. unfold bind. rewrite Em, Ek.
  split; [reflexivity|now apply console_app].
Qed.

Lemma bind_talks {A B} (m : M A) (k : A -> M B) (w : World) :
  talks m ->
  exists a e1, console e1 /\
    (x <- m ;; k x) w
    = (let '(c, w2, e2) := k a w in (c, w2, (e1 ++ e2)%list)).
Proof.
  intros Hm. destruct (Hm w) as (a & e1 & Em & C1).
  exists a, e1. split; [exact C1|]. unfold bind. now rewrite Em.
Qed.

Ltac talk :=
  repeat first
    [ apply talks_ret | apply talks_timeStamp | apply talks_timeout
    | apply talks_bind; [|intro]
    | match goal with
      | |- talks (if ?b then _ else _) => destruct b
      | |- talks (match ?o with Some _ => _ | None => _ end) => destruct o
      end ].

(** ** The derivation path *)

Lemma string_app_assoc (a b c : string) :
  ((a ++ b) ++ c)%string = (a ++ b ++ c)%string.
Proof. induction a as [|x a IH]; cbn; [reflexivity|now rewrite IH]. Qed.

Lemma hardened_signable (z : Z) :
  (-2147483648 <=? z) && (z <? 2147483648) = true ->
  hardened z = Returned (z + 2147483648).
Proof.
  intros H. apply andb_true_iff in H as [H1 H2].
  apply Z.leb_le in H1. apply Z.ltb_lt in H2.
  unfold hardened, uint32.
  destruct (Z.ltb_spec (z + 2147483648) 0); [lia|].
  destruct (Z.ltb_spec 4294967295 (z + 2147483648)); [lia|reflexivity].
Qed.

Lemma hardened_unsignable (z : Z) :
  (-2147483648 <=? z) && (z <? 2147483648) = false ->
  exists msg, hardened z = Thrown (Error msg).
Proof.
  intros H. unfold hardened, uint32.
  destruct (Z.ltb_spec (z + 2147483648) 0); [eexists; reflexivity|].
  destruct (Z.ltb_spec 4294967295 (z + 2147483648)); [eexists; reflexivity|].
  exfalso. apply andb_false_iff in H as [H|H].
  - apply Z.leb_gt in H. lia.
  - apply Z.ltb_ge in H. lia.
Qed.

Lemma hdPath_signable (z : Z) :
  (-2147483648 <=? z) && (z <? 2147483648) = true ->
  hdPath z = Returned [2147483692; z + 2147483648; 2147483648; 0; 0].
Proof.
  intros H. unfold hdPath. rewrite (hardened_signable z H). reflexivity.
Qed.

Lemma hdPath_unsignable (z : Z) :
  (-2147483648 <=? z) && (z <? 2147483648) = false ->
  exists msg, hdPath z = Thrown (Error msg).
Proof.
  intros H. destruct (hardened_unsignable z H) as (msg & E).
  exists msg. unfold hdPath. rewrite E. reflexivity.
Qed.

Lemma pathToString_hdPath (z : Z) :
  pathToString [2147483692; z + 2147483648; 2147483648; 0; 0]
  = derivationPath z.
Proof.
  unfold pathToString, derivationPath, isHardened. cbn [fold_left].
  replace (2147483648 <=? z + 2147483648) with (0 <=? z)
    by (destruct (Z.leb_spec 0 z), (Z.leb_spec 2147483648 (z + 2147483648));
        first [reflexivity|lia]).
  rewrite Z.add_simpl_r.
  change (2147483648 <=? 2147483692) with true.
  change (2147483648 <=? 2147483648) with true.
  change (2147483648 <=? 0) with false. cbv iota.
  change (decimal (2147483692 - 2147483648)) with "44".
  change (decimal (2147483648 - 2147483648)) with "0".
  change (decimal 0) with "0".
  destruct (0 <=? z); cbn [append];
    now rewrite !string_app_assoc.
Qed.

(** The path of the coin type - 1 keeps its second index unhardened, and
    the coin type 2 ** 31 makes no path. *)
Example hdPath_at_the_ends :
  andThen (hdPath (-1)) (fun path => Returned (pathToString path))
  = Returned "m/44'/2147483647/0'/0/0"
  /\ andThen (hdPath 118) (fun path => Returned (pathToString path))
     = Returned "m/44'/118'/0'/0/0"
  /\ hdPath 2147483648
     = Thrown (Error "Input not in uint32 range: 4294967296")
  /\ hdPath (-2147483649)
     = Thrown (Error "Input not in uint32 range: -1").
Proof. repeat split; vm_compute; reflexivity. Qed.

(** ** getSigner and getNetworkRunner, as their answers decide *)

Lemma getSigner_eq (data : NetworkData) (network : Loaded World)
    (w : World) :
  getSigner data network w
  = (signing data network, w, signerLines data network).
Proof.
  unfold getSigner, signing, signerLines, signerSlip44, wantsCorrectSlip44,
    isEth, bind, ret, timeStamp, settle, andThen. unfold emit.
  destruct (autostake data) as [a|]; [destruct (correctSlip44 a)|];
    destruct (chain_slip44 network) as [c|];
    try destruct (Z.eqb c 60); cbn [orb];
    cbv beta iota;
    match goal with
    | |- context [hdPath ?z] => destruct (hdPath z)
    end;
    cbv beta iota;
    repeat match goal with
           | |- context [if ?b then _ else _] => destruct b
           end;
    reflexivity.
Qed.

Lemma signing_cases (data : NetworkData) (network : Loaded World) :
  (signable data network = true
   /\ signing data network = Returned (signerSlip44 data network)
   /\ hdPath (signerSlip44 data network)
      = Returned [2147483692; signerSlip44 data network + 2147483648;
                  2147483648; 0; 0])
  \/ (signable data network = false
      /\ exists msg,
           signing data network = Thrown (Error msg)
           /\ hdPath (signerSlip44 data network) = Thrown (Error msg)).
Proof.
  unfold signable, signing.
  destruct ((-2147483648 <=? signerSlip44 data network)
            && (signerSlip44 data network <? 2147483648)) eqn:E.
  - left. rewrite (hdPath_signable _ E). now repeat split.
  - right. destruct (hdPath_unsignable _ E) as (msg & Em).
    split; [reflexivity|]. exists msg. rewrite Em. now split.
Qed.

Lemma getNetworkRunner_eq (data : NetworkData) (w : World) :
  getNetworkRunner data w
  = (construction data (fst (loadNetwork data w)),
     snd (loadNetwork data w),
     NetworkLoad data :: constructionLines data (fst (loadNetwork data w))).
Proof.
  unfold getNetworkRunner, construction, constructionLines, offPreferredPath,
    pathWarning.
  destruct (loadNetwork data w) as [network w1]. cbn [fst snd].
  unfold bind, timeStamp, throw, ret. unfold emit.
  destruct (loads network); cbn [negb]; [|reflexivity].
  cbv beta iota. rewrite getSigner_eq. cbv beta iota.
  destruct (signing_cases data network)
    as [(Hs & -> & _)|(Hs & msg & -> & _)]; rewrite Hs; cbn [negb andThen].
  2:{ now rewrite !app_nil_r. }
  destruct (chain_slip44 network) as [c|];
    repeat match goal with
           | |- context [if ?b then _ else _] => destruct b
           end;
    cbn [negb andb app]; rewrite ?app_nil_r, <- ?app_assoc; reflexivity.
Qed.

Lemma signerLines_console (data : NetworkData) (network : Loaded World) :
  console (signerLines data network).
Proof.
  unfold signerLines.
  destruct (isEth network), (hdPath (signerSlip44 data network));
    try destruct (Z.eqb (signerSlip44 data network) 118); repeat split.
Qed.

Lemma constructionLines_console (data : NetworkData)
    (network : Loaded World) :
  console (constructionLines data network).
Proof.
  unfold constructionLines, pathWarning.
  destruct (negb (loads network)); [apply console_nil|].
  change (TimeStamp ?a :: ?l) with ([TimeStamp a] ++ l)%list.
  apply console_app; [repeat split|].
  apply console_app; [apply signerLines_console|].
  repeat match goal with
         | |- context [if ?b then _ else _] => destruct b
         end;
    repeat split.
Qed.

(** [getNetworkRunner] calls [network.load()] once and otherwise only
    writes to the console; it resolves to a runner exactly when the loaded
    network [constructs]. *)
Lemma getNetworkRunner_cases (data : NetworkData) (w : World) :
  exists c evs,
    getNetworkRunner data w
    = (c, snd (loadNetwork data w), NetworkLoad data :: evs)
    /\ console evs
    /\ match c with
       | Returned (Some handle) =>
           constructs data (fst (loadNetwork data w)) = true
           /\ handle = newNetworkRunner (fst (loadNetwork data w))
       | _ => constructs data (fst (loadNetwork data w)) = false
       end.
Proof.
  exists (construction data (fst (loadNetwork data w))),
         (constructionLines data (fst (loadNetwork data w))).
  split; [apply getNetworkRunner_eq|].
  split; [apply constructionLines_console|].
  unfold construction, constructs, builds.
  destruct (loads (fst (loadNetwork data w))); cbn [negb andb];
    [|reflexivity].
  destruct (signing_cases data (fst (loadNetwork data w)))
    as [(Hs & -> & _)|(Hs & msg & -> & _)]; rewrite Hs; cbn [andThen].
  2:{ apply andb_false_r. }
  rewrite andb_true_r.
  destruct (operator (fst (loadNetwork data w))); cbn [negb andb];
    [|reflexivity].
  destruct (authzSupport (fst (loadNetwork data w))); cbn [negb andb];
    [|reflexivity].
  destruct (truthy_opt (restUrl (fst (loadNetwork data w)))); cbn [negb];
    [split|]; reflexivity.
Qed.

(** ** Health lines *)

Lemma plain_nil : plain [].
Proof. repeat split. Qed.

Lemma plain_app (a b : list Event) : plain a -> plain b -> plain (a ++ b).
Proof.
  intros (Ha1 & Ha2 & Ha3 & Ha4) (Hb1 & Hb2 & Hb3 & Hb4). unfold plain.
  rewrite loadsOf_app, runsOf_app, flushes_app, terminals_app.
  now rewrite Ha1, Ha2, Ha3, Ha4, Hb1, Hb2, Hb3, Hb4.
Qed.

Lemma notes_ret : notes (ret tt).
Proof. exists []. split; [apply logs_ret|apply plain_nil]. Qed.

Lemma notes_log (health : Health) (args : list string) :
  notes (call health (log args)).
Proof. eexists. split; [apply logs_call|repeat split]. Qed.

Lemma notes_addLogs (health : Health) (lines : list string) :
  notes (call health (addLogs lines)).
Proof. eexists. split; [apply logs_call|repeat split]. Qed.

Lemma notes_started (health : Health) (args : list string) :
  notes (call health (started args)).
Proof. eexists. split; [apply logs_call|repeat split]. Qed.

Lemma notes_bind (m k : M unit) : notes m -> notes k -> notes (m ;;; k).
Proof.
  intros (e1 & L1 & P1) (e2 & L2 & P2). exists (e1 ++ e2)%list.
  split; [now apply logs_bind|now apply plain_app].
Qed.

Lemma notes_logEntries (health : Health) (entries : list TxResult)
    (index : Z) :
  notes (logEntries health index entries).
Proof.
  revert index. induction entries as [|r rest IH]; intro index; simpl.
  - apply notes_ret.
  - apply notes_bind; [apply notes_log|apply IH].
Qed.

Lemma notes_logSummary (health : Health) (networkRunner : NetworkRunner) :
  notes (logSummary health networkRunner).
Proof.
  unfold logSummary. apply notes_bind;
    [apply notes_log|apply notes_logEntries].
Qed.

Lemma notes_logAttempts (health : Health) (runners : list NetworkRunner)
    (index : Z) :
  notes (logAttempts health index runners).
Proof.
  revert index. induction runners as [|r rest IH]; intro index; simpl.
  - apply notes_ret.
  - apply notes_bind; [apply notes_log|].
    apply notes_bind; [apply notes_logSummary|apply IH].
Qed.

(** With a runner at hand, [logResults] only logs, and flushes once. *)
Lemma logResults_logs (health : Health) (networkRunner : NetworkRunner)
    (error message : option string) :
  exists evs,
    logs (logResults health (Some networkRunner) error message) evs
    /\ loadsOf evs = [] /\ runsOf evs = []
    /\ flushes evs = 1%nat /\ terminals evs = 0%nat.
Proof.
  unfold logResults.
  assert (Hhead : notes
    (call health (addLogs (queryErrors networkRunner)) ;;;
     logSummary health networkRunner ;;;
     (match error with
      | Some e =>
          if truthy e then call health (log ["Failed with error: " ++ e])
          else ret tt
      | None => ret tt
      end) ;;;
     (match message with
      | Some m => if truthy m then call health (log [m]) else ret tt
      | None => ret tt
      end))).
  { apply notes_bind; [apply notes_addLogs|].
    apply notes_bind; [apply notes_logSummary|].
    apply notes_bind.
    - destruct error as [e|]; [destruct (truthy e)|];
        first [apply notes_log|apply notes_ret].
    - destruct message as [m|]; [destruct (truthy m)|];
        first [apply notes_log|apply notes_ret]. }
  destruct Hhead as (evs & Hlogs & (P1 & P2 & P3 & P4)).
  exists (evs ++ [OnHealth health sendLog])%list.
  split.
  - intro w. specialize (Hlogs w). revert Hlogs. unfold bind.
    destruct (call health (addLogs (queryErrors networkRunner)) w)
      as [[[u|e] w1] e1]; [|discriminate].
    destruct (logSummary health networkRunner w1)
      as [[[u2|e] w2] e2]; [|discriminate].
    match goal with
    | |- context [match ?m w2 with _ => _ end] =>
        destruct (m w2) as [[[u3|e] w3] e3]; [|discriminate]
    end.
    match goal with
    | |- context [match ?m w3 with _ => _ end] =>
        destruct (m w3) as [[[u4|e] w4] e4]; [|discriminate]
    end.
    intro H; inversion H; subst. unfold call, emit.
    now rewrite <- !app_assoc.
  - rewrite loadsOf_app, runsOf_app, flushes_app, terminals_app.
    rewrite P1, P2, P3, P4. repeat split.
Qed.

Lemma logResults_eq (health : Health) (networkRunner : NetworkRunner)
    (error message : option string) (w : World) :
  logResults health (Some networkRunner) error message w
  = (Returned tt, w,
     snd (logResults health (Some networkRunner) error message w)).
Proof.
  destruct (logResults_logs health networkRunner error message)
    as (evs & Hlogs & _).
  now rewrite Hlogs.
Qed.

Lemma logResults_events (health : Health) (networkRunner : NetworkRunner)
    (error message : option string) (w : World) :
  let evs := snd (logResults health (Some networkRunner) error message w) in
  loadsOf evs = [] /\ runsOf evs = []
  /\ flushes evs = 1%nat /\ terminals evs = 0%nat.
Proof.
  destruct (logResults_logs health networkRunner error message)
    as (evs & Hlogs & H).
  cbv zeta. now rewrite Hlogs.
Qed.

(** ** One attempt *)

(** The [try] block never throws; it calls [network.load()] once, and what
    it leaves depends on how construction and [run] went. *)
Lemma attempt_cases (data : NetworkData) (health : Health)
    (runners : list NetworkRunner) (w : World) :
  let network := fst (loadNetwork data w) in
  let ran :=
    fst (newNetworkRunner network (limitArg (lastOf runners))
           (snd (loadNetwork data w))) in
  exists s w1 evs,
    attempt data health runners w = (Returned s, w1, evs)
    /\ loadsOf evs = [data]
    /\ terminals evs = 0%nat
    /\ match s with
       | Return RTrue =>
           constructs data network = false /\ runsOf evs = [] /\ healthOf evs = []
       | Return (RRunners history) =>
           constructs data network = true
           /\ history = (runners ++ [ran])%list
           /\ run_threw ran = None /\ didSucceed ran = true
           /\ runsOf evs = [(limitArg (lastOf runners), ran)]
           /\ flushes evs = 1%nat
       | Fallthrough None runners' _ =>
           constructs data network = false /\ runners' = runners
           /\ runsOf evs = [] /\ healthOf evs = []
       | Fallthrough (Some networkRunner) runners' _ =>
           constructs data network = true
           /\ networkRunner = ran
           /\ runners' = (runners ++ [ran])%list
           /\ reportsFailure ran
           /\ runsOf evs = [(limitArg (lastOf runners), ran)]
           /\ flushes evs = 0%nat
       end.
Proof.
  cbv zeta. unfold attempt, bind, catching.
  destruct (getNetworkRunner_cases data w) as (c & evs & E & (C1 & C2 & C3) & Hc).
  rewrite E. destruct (loadNetwork data w) as [network w1]; simpl fst in *;
    simpl snd in *.
  assert (Hflush : flushes evs = 0%nat) by (unfold flushes; now rewrite C3).
  assert (Hterm : terminals evs = 0%nat) by (unfold terminals; now rewrite C3).
  destruct c as [[handle|]|e].
  - destruct Hc as [Hb ->]. unfold runRunner.
    destruct (newNetworkRunner network (limitArg (lastOf runners)) w1)
      as [ran w2] eqn:Eran; simpl fst.
    destruct (run_threw ran) as [msg|] eqn:Ethrew.
    + eexists _, _, _. split; [reflexivity|].
      projections. rewrite C1, C2, Hflush, Hterm.
      repeat split; trivial. left. congruence.
    + destruct (didSucceed ran) eqn:Eok.
      * destruct (logResults_logs health ran None None)
          as (levs & Hlogs & L1 & L2 & L3 & L4).
        rewrite Hlogs. unfold ret.
        eexists _, _, _. split; [reflexivity|].
        projections. rewrite C1, C2, Hflush, Hterm, L1, L2, L3, L4.
        repeat split; trivial.
      * eexists _, _, _. split; [reflexivity|].
        projections. rewrite C1, C2, Hflush, Hterm.
        repeat split; trivial. now right.
  - eexists _, _, _. split; [reflexivity|].
    projections. rewrite C1, C2, C3, Hterm. repeat split; trivial.
  - eexists _, _, _. split; [reflexivity|].
    projections. rewrite C1, C2, C3, Hterm. repeat split; trivial.
Qed.

(** ** runWithRetry settles as its executions say *)

Lemma runWithRetry_RetryRun (data : NetworkData) (health : Health) :
  forall (n : nat) (retries : Z) (runners : list NetworkRunner) (w : World),
    Z.to_nat (maxRetries data - retries) = n ->
    RetryRun data health retries runners w
      (runWithRetry data health retries runners w).
Proof.
  induction n as [|n IH]; intros retries runners w Hn;
    rewrite runWithRetry_equation_1; unfold bind at 1;
    destruct (attempt_cases data health runners w)
      as (s & w1 & evs & Eatt & _); rewrite Eatt.
  - destruct s as [result|[networkRunner|] runners' error].
    + unfold ret. rewrite app_nil_r. now apply retry_return.
    + destruct (Z_lt_dec retries (maxRetries data)) as [Hlt|Hge]; [lia|].
      unfold bind. rewrite logResults_eq. unfold ret.
      rewrite app_nil_r.
      eapply retry_final; [eassumption|]. left; lia.
    + destruct (Z_lt_dec retries (maxRetries data)) as [Hlt|Hge]; [lia|].
      unfold bind, logResults, throw. rewrite app_nil_r.
      eapply retry_absent_exhausted; [eassumption|lia].
  - destruct s as [result|[networkRunner|] runners' error].
    + unfold ret. rewrite app_nil_r. now apply retry_return.
    + destruct (Z_lt_dec retries (maxRetries data)) as [Hlt|Hge].
      * unfold bind at 1, notForceFail, ret.
        destruct (forceFail networkRunner) eqn:Eff; cbn [negb].
        -- unfold bind. rewrite logResults_eq.
           rewrite !app_nil_r. cbn [app].
           eapply retry_final; [eassumption|]. now right.
        -- unfold bind at 1. rewrite logResults_eq.
           unfold bind at 1, emit.
           specialize (IH (retries + 1) runners' w1 ltac:(lia)).
           destruct (runWithRetry data health (retries + 1) runners' w1)
             as [[c w2] evs2].
           cbn [app].
           eapply retry_again; eassumption.
      * unfold bind. rewrite logResults_eq. unfold ret.
        rewrite app_nil_r.
        eapply retry_final; [eassumption|]. left; lia.
    + destruct (Z_lt_dec retries (maxRetries data)) as [Hlt|Hge].
      * unfold bind, notForceFail, throw. rewrite app_nil_r.
        eapply retry_absent_budget; eassumption.
      * unfold bind, logResults, throw. rewrite app_nil_r.
        eapply retry_absent_exhausted; [eassumption|lia].
Qed.

Lemma runWithRetry_run (data : NetworkData) (health : Health)
    (retries : Z) (runners : list NetworkRunner) (w : World) :
  RetryRun data health retries runners w
    (runWithRetry data health retries runners w).
Proof. now apply (runWithRetry_RetryRun data health (Z.to_nat (maxRetries data - retries))). Qed.

Lemma attempt_inv (data : NetworkData) (health : Health)
    (runners : list NetworkRunner) (w w1 : World) (s : Settled)
    (evs : list Event) :
  attempt data health runners w = (Returned s, w1, evs) ->
  let network := fst (loadNetwork data w) in
  let ran :=
    fst (newNetworkRunner network (limitArg (lastOf runners))
           (snd (loadNetwork data w))) in
  loadsOf evs = [data]
  /\ terminals evs = 0%nat
  /\ match s with
     | Return RTrue =>
         constructs data network = false /\ runsOf evs = [] /\ healthOf evs = []
     | Return (RRunners history) =>
         constructs data network = true
         /\ history = (runners ++ [ran])%list
         /\ run_threw ran = None /\ didSucceed ran = true
         /\ runsOf evs = [(limitArg (lastOf runners), ran)]
         /\ flushes evs = 1%nat
     | Fallthrough None runners' _ =>
         constructs data network = false /\ runners' = runners
         /\ runsOf evs = [] /\ healthOf evs = []
     | Fallthrough (Some networkRunner) runners' _ =>
         constructs data network = true
         /\ networkRunner = ran
         /\ runners' = (runners ++ [ran])%list
         /\ reportsFailure ran
         /\ runsOf evs = [(limitArg (lastOf runners), ran)]
         /\ flushes evs = 0%nat
     end.
Proof.
  intros E. destruct (attempt_cases data health runners w)
    as (s' & w1' & evs' & E' & H).
  rewrite E in E'. inversion E'; subst. exact H.
Qed.

Lemma lastOf_snoc {A} (l : list A) (x : A) : lastOf (l ++ [x]) = Some x.
Proof. unfold lastOf. now rewrite rev_app_distr. Qed.

(** Opens an execution: one goal per rule, with what [attempt_inv] says of
    the attempt among the hypotheses. *)
Ltac executions H :=
  induction H as
    [ retries runners w result w1 evs Hatt
    | retries runners w runners' error w1 evs Hatt Hlt
    | retries runners w runners' error w1 evs Hatt Hge
    | retries runners w networkRunner runners' error w1 evs Hatt Hstop
    | retries runners w networkRunner runners' error w1 evs c w2 evs2
        Hatt Hlt Hff Hrec IH ];
  apply attempt_inv in Hatt; cbv zeta in Hatt;
  destruct Hatt as (Hloads & Hterm & Hcase);
  [ destruct result as [|history];
    [ destruct Hcase as (Hbuilds & Hruns & Hhealth)
    | destruct Hcase as (Hbuilds & Hhist & Hthrew & Hok & Hruns & Hflush) ]
  | destruct Hcase as (Hbuilds & Hsame & Hruns & Hhealth)
  | destruct Hcase as (Hbuilds & Hsame & Hruns & Hhealth)
  | destruct Hcase as (Hbuilds & Hran & Hhist & Hfail & Hruns & Hflush);
    match goal with
    | |- context [logResults ?h (Some ?r) ?e ?m ?w] =>
        destruct (logResults_events h r e m w) as (L1 & L2 & L3 & L4)
    end
  | destruct Hcase as (Hbuilds & Hran & Hhist & Hfail & Hruns & Hflush);
    match goal with
    | |- context [logResults ?h (Some ?r) ?e ?m ?w] =>
        destruct (logResults_events h r e m w) as (L1 & L2 & L3 & L4)
    end ];
  cbn [fst snd] in *; projections.

(** ** What every execution of runWithRetry satisfies *)

(** Every load of an execution is a load of [data], there is at least one,
    and there are at most as many as the budget left plus one. *)
Lemma RetryRun_loads (data : NetworkData) (health : Health) (retries : Z)
    (runners : list NetworkRunner) (w : World)
    (out : Completion RetryResult * World * list Event) :
  RetryRun data health retries runners w out ->
  exists n,
    loadsOf (snd out) = repeat data (S n)
    /\ (n <= Z.to_nat (maxRetries data - retries))%nat.
Proof.
  intros H. executions H.
  - exists 0%nat. split; [exact Hloads|lia].
  - exists 0%nat. split; [exact Hloads|lia].
  - exists 0%nat. split; [exact Hloads|lia].
  - exists 0%nat. split; [exact Hloads|lia].
  - exists 0%nat. rewrite Hloads, L1. split; [reflexivity|lia].
  - destruct IH as (n & Hn & Hle). exists (S n).
    rewrite Hloads, L1, Hn. split; [reflexivity|lia].
Qed.

(** The runs of an execution are chained from the last runner it was
    given. *)
Lemma RetryRun_chained (data : NetworkData) (health : Health) (retries : Z)
    (runners : list NetworkRunner) (w : World)
    (out : Completion RetryResult * World * list Event) :
  RetryRun data health retries runners w out ->
  chained (lastOf runners) (runsOf (snd out)).
Proof.
  intros H. executions H.
  - rewrite Hruns. exact I.
  - rewrite Hruns. now split.
  - rewrite Hruns. exact I.
  - rewrite Hruns. exact I.
  - rewrite Hruns, L2. now split.
  - rewrite Hruns, L2. cbn [app]. split; [reflexivity|].
    rewrite Hhist, lastOf_snoc in IH. exact IH.
Qed.

(** An execution that returns a history returns the runners it was given
    followed by the runners it ran; it loaded and flushed once per run, ran
    at least once, and called neither [success] nor [failed]. *)
Lemma RetryRun_history (data : NetworkData) (health : Health) (retries : Z)
    (runners : list NetworkRunner) (w : World)
    (out : Completion RetryResult * World * list Event) :
  RetryRun data health retries runners w out ->
  terminals (snd out) = 0%nat
  /\ forall history,
       fst (fst out) = Returned (RRunners history) ->
       history = (runners ++ map snd (runsOf (snd out)))%list
       /\ List.length (loadsOf (snd out)) = List.length (runsOf (snd out))
       /\ flushes (snd out) = List.length (runsOf (snd out))
       /\ runsOf (snd out) <> [].
Proof.
  intros H. executions H.
  - split; [exact Hterm|]. intros history Hr. discriminate.
  - split; [exact Hterm|]. intros history' Hr. inversion Hr; subst.
    rewrite Hloads, Hruns, Hflush. repeat split. discriminate.
  - split; [exact Hterm|]. intros history Hr. discriminate.
  - split; [exact Hterm|]. intros history Hr. discriminate.
  - split; [rewrite Hterm, L4; reflexivity|].
    intros history Hr. inversion Hr; subst.
    rewrite Hloads, Hruns, Hflush, L1, L2, L3. repeat split. discriminate.
  - destruct IH as (IHterm & IH).
    split; [rewrite Hterm, L4, IHterm; reflexivity|].
    intros history Hr. destruct (IH history Hr) as (Hh & Hl & Hf & Hne).
    rewrite Hloads, Hruns, Hflush, L1, L2, L3. cbn [app map snd List.length].
    rewrite Hl, Hf. repeat split; try discriminate.
    rewrite Hh, Hhist, <- app_assoc. reflexivity.
Qed.

(** A run that settles as a failure with [forceFail] set is the last thing
    an execution does: no run and no load follows it, and the execution
    returns the history. *)
Lemma RetryRun_forceFail (data : NetworkData) (health : Health) (retries : Z)
    (runners : list NetworkRunner) (w : World)
    (out : Completion RetryResult * World * list Event) :
  RetryRun data health retries runners w out ->
  forall k arg r,
    nth_error (runsOf (snd out)) k = Some (arg, r) ->
    reportsFailure r -> forceFail r = true ->
    List.length (runsOf (snd out)) = S k
    /\ List.length (loadsOf (snd out)) = S k
    /\ fst (fst out)
       = Returned (RRunners (runners ++ map snd (runsOf (snd out)))).
Proof.
  intros H. executions H; intros k arg r Hk Hr Hforce.
  - rewrite Hruns in Hk. destruct k; discriminate.
  - rewrite Hruns in Hk. destruct k as [|k]; [|destruct k; discriminate].
    inversion Hk; subst r. destruct Hr as [Hr|Hr]; congruence.
  - rewrite Hruns in Hk. destruct k; discriminate.
  - rewrite Hruns in Hk. destruct k; discriminate.
  - rewrite Hruns, L2 in *. rewrite Hloads, L1.
    destruct k as [|k]; [|destruct k; discriminate].
    repeat split. now rewrite Hhist.
  - rewrite Hruns, L2 in *. rewrite Hloads, L1. cbn [app] in *.
    destruct k as [|k].
    + inversion Hk; subst r. congruence.
    + cbn [nth_error] in Hk.
      destruct (IH k arg r Hk Hr Hforce) as (Hlen & Hl & Hout).
      cbn [List.length map snd]. rewrite Hlen, Hl. repeat split.
      rewrite Hout, Hhist, <- app_assoc. reflexivity.
Qed.

(** An execution in which every attempt got its runner returns a
    history. *)
Lemma RetryRun_every_attempt_ran (data : NetworkData) (health : Health)
    (retries : Z) (runners : list NetworkRunner) (w : World)
    (out : Completion RetryResult * World * list Event) :
  RetryRun data health retries runners w out ->
  List.length (runsOf (snd out)) = List.length (loadsOf (snd out)) ->
  exists history, fst (fst out) = Returned (RRunners history).
Proof.
  intros H. executions H; rewrite ?Hloads, ?Hruns, ?L1, ?L2;
    cbn [app List.length]; intros Hevery; try discriminate.
  - now exists history.
  - now exists runners'.
  - apply IH. now inversion Hevery.
Qed.


(** ** One network *)

Lemma processNetwork_cases (data : NetworkData) (w : World) :
  let health := newHealth data in
  let out := runWithRetry data health 0 [] w in
  exists c tail,
    processNetwork data w
    = (c, snd (fst out),
       OnHealth health (started ["⚛"]) :: (snd out ++ tail)%list)
    /\ loadsOf tail = [] /\ runsOf tail = [] /\ flushes tail = 0%nat
    /\ match fst (fst out) with
       | Thrown e => c = Thrown e /\ tail = []
       | Returned RTrue =>
           c = Thrown (TypeError
                 "Cannot read properties of undefined (reading 'didSucceed')")
           /\ tail = []
       | Returned (RRunners history) =>
           match lastOf history with
           | None =>
               c = Thrown (TypeError
                     "Cannot read properties of undefined (reading 'didSucceed')")
               /\ terminals tail = 0%nat
           | Some r =>
               c = Returned tt
               /\ terminals tail = 1%nat
               /\ lastOf (healthOf tail)
                  = Some (if didSucceed r
                          then success ["Autostake finished"]
                          else failed ["Autostake failed"])
           end
       end.
Proof.
  cbv zeta. unfold processNetwork.
  rewrite (logs_then _ _ _ w (logs_call _ _)).
  unfold bind at 1.
  destruct (runWithRetry data (newHealth data) 0 [] w) as [[c w1] evs].
  cbn [fst snd].
  destruct c as [[|history]|e].
  - unfold bind, ret, throw, lastResult.
    eexists _, []. cbn [app]. split; [reflexivity|]. now repeat split.
  - match goal with
    | |- context [bind ?m ?k w1] =>
        assert (Hn : notes m)
          by (apply notes_bind; [apply notes_log|apply notes_logAttempts]);
        destruct Hn as (nevs & Hlogs & (P1 & P2 & P3 & P4));
        rewrite (logs_then m _ nevs w1 Hlogs)
    end.
    unfold lastResult. destruct (lastOf history) as [r|].
    + destruct (didSucceed r).
      * eexists _, (nevs ++ [OnHealth (newHealth data)
                                (success ["Autostake finished"])])%list.
        unfold call, emit. cbn [app]. split; [reflexivity|].
        projections. rewrite P1, P2, P3, P4. repeat split.
        unfold lastOf. now rewrite rev_app_distr.
      * eexists _, (nevs ++ [OnHealth (newHealth data)
                                (failed ["Autostake failed"])])%list.
        unfold call, emit. cbn [app]. split; [reflexivity|].
        projections. rewrite P1, P2, P3, P4. repeat split.
        unfold lastOf. now rewrite rev_app_distr.
    + eexists _, nevs. unfold throw. split.
      * rewrite app_nil_r. reflexivity.
      * now repeat split.
  - eexists _, []. rewrite app_nil_r. split; [reflexivity|].
    now repeat split.
Qed.

(** The loads of one network's processing are loads of that network, at
    least one and at most one more than the retries of its budget. *)
Lemma processNetwork_loads (data : NetworkData) (w : World) :
  exists n,
    loadsOf (snd (processNetwork data w)) = repeat data (S n)
    /\ (n <= Z.to_nat (maxRetries data))%nat.
Proof.
  destruct (processNetwork_cases data w) as (c & tail & E & T1 & _).
  cbv zeta in E. rewrite E. cbn [snd].
  destruct (RetryRun_loads data (newHealth data) 0 [] w _
              (runWithRetry_run data (newHealth data) 0 [] w))
    as (n & Hn & Hle).
  exists n. split.
  - change (OnHealth ?h ?c :: ?l) with ([OnHealth h c] ++ l)%list.
    projections. rewrite Hn, T1. cbn [loadsOf flat_map app].
    now rewrite app_nil_r.
  - now rewrite Z.sub_0_r in Hle.
Qed.

Lemma networkCall_selected (names : list string) (data : NetworkData) :
  networkCall (Some names) data
  = if selected (Some names) data then processNetwork data else ret tt.
Proof.
  unfold networkCall, selected, filteredOut, disabled.
  destruct names as [|n names]; cbn [List.length Nat.eqb negb andb].
  - destruct (enabled data) as [[|]|]; reflexivity.
  - destruct (includes (n :: names) (name data)); cbn [negb andb];
      destruct (enabled data) as [[|]|]; reflexivity.
Qed.

(** ** The scheduler *)

Lemma getNetworksData_eq (w : World) :
  getNetworksData w = (Returned (configured w), w, configNotice w).
Proof.
  unfold getNetworksData, configured, configNotice.
  destruct (networksLocal w); reflexivity.
Qed.

Lemma configNotice_console (w : World) : console (configNotice w).
Proof. unfold configNotice. destruct (networksLocal w); repeat split. Qed.

Lemma truthy_true (s : string) : truthy s = true <-> s <> "".
Proof.
  unfold truthy. rewrite negb_true_iff. split.
  - intros H ->. discriminate.
  - intro H. now apply String.eqb_neq.
Qed.

Lemma includes_In (l : list string) (x : string) :
  includes l x = true <-> In x l.
Proof.
  unfold includes. rewrite existsb_exists. split.
  - intros (y & Hy & E). apply String.eqb_eq in E. now subst.
  - intro H. exists x. split; [exact H|apply String.eqb_refl].
Qed.

Lemma invalidName_Some (known names : list string) (bad : string) :
  invalidName known names = Some bad ->
  In bad names /\ bad <> "" /\ ~ In bad known.
Proof.
  induction names as [|n rest IH]; simpl; [discriminate|].
  destruct (truthy n && negb (includes known n)) eqn:E.
  - intro H; inversion H; subst. apply andb_true_iff in E as [E1 E2].
    split; [now left|]. split; [now apply truthy_true|].
    rewrite negb_true_iff in E2. intro Hin. apply includes_In in Hin.
    congruence.
  - intro H. destruct (IH H) as (H1 & H2 & H3). auto.
Qed.

Lemma invalidName_None (known names : list string) :
  invalidName known names = None <->
  (forall n, In n names -> n <> "" -> In n known).
Proof.
  induction names as [|n rest IH]; simpl.
  - split; [intros _ m []|reflexivity].
  - destruct (truthy n && negb (includes known n)) eqn:E.
    + split; [discriminate|]. intro H. exfalso.
      apply andb_true_iff in E as [E1 E2]. rewrite negb_true_iff in E2.
      apply truthy_true in E1.
      assert (Hin : In n known) by (apply H; [now left|exact E1]).
      apply includes_In in Hin. congruence.
    + rewrite IH. split.
      * intros H m [<-|Hm] Hne; [|now apply H].
        apply andb_false_iff in E as [E|E].
        -- apply truthy_true in Hne. congruence.
        -- rewrite negb_false_iff in E. now apply includes_In.
      * intros H m Hm. apply H. now right.
Qed.

Lemma run_eq (names : list string) (w : World) :
  run (Some names) w
  = match invalidName (map name (configured w)) names with
    | Some bad =>
        (Returned tt, w,
         (configNotice w ++ [TimeStamp ["Invalid network name:"; bad]])%list)
    | None =>
        let '(c, w', evs) :=
          executeSync (map (networkCall (Some names)) (configured w)) 1 w in
        (c, w', (configNotice w ++ evs)%list)
    end.
Proof.
  unfold run, bind. rewrite getNetworksData_eq.
  destruct (invalidName (map name (configured w)) names); reflexivity.
Qed.

Lemma run_absent (w : World) :
  run None w
  = (Thrown (TypeError "networkNames is not iterable"), w, configNotice w).
Proof.
  unfold run, bind, throw. rewrite getNetworksData_eq.
  now rewrite app_nil_r.
Qed.

Lemma executeSync_selected (names : list string) (nets : list NetworkData) :
  forall w,
    executeSync (map (networkCall (Some names)) nets) 1 w
    = executeSync (map processNetwork (filter (selected (Some names)) nets))
        1 w.
Proof.
  induction nets as [|d rest IH]; intro w; [reflexivity|].
  cbn [map filter executeSync]. rewrite networkCall_selected.
  destruct (selected (Some names) d).
  - cbn [map executeSync]. unfold bind.
    destruct (processNetwork d w) as [[[u|e] w1] e1]; [|reflexivity].
    now rewrite IH.
  - unfold bind, ret. rewrite IH.
    now destruct (executeSync _ 1 w) as [[c w2] e2].
Qed.

Lemma executeSync_loads_in (nets : list NetworkData) (d : NetworkData) :
  forall w,
    In d (loadsOf (snd (executeSync (map processNetwork nets) 1 w))) ->
    In d nets.
Proof.
  induction nets as [|a rest IH]; intros w; cbn [map executeSync].
  - intros [].
  - unfold bind.
    destruct (processNetwork_loads a w) as (n & Hn & _).
    destruct (processNetwork a w) as [[[u|e] w1] e1]; cbn [snd] in Hn.
    + specialize (IH w1).
      destruct (executeSync (map processNetwork rest) 1 w1)
        as [[c w2] e2]; cbn [snd] in *.
      rewrite loadsOf_app, Hn. intro H. apply in_app_or in H as [H|H].
      * apply repeat_spec in H. now left.
      * right. now apply IH.
    + cbn [snd]. rewrite Hn. intro H. apply repeat_spec in H. now left.
Qed.

Lemma executeSync_loads_all (nets : list NetworkData) :
  forall w,
    fst (fst (executeSync (map processNetwork nets) 1 w)) = Returned tt ->
    forall d, In d nets ->
      In d (loadsOf (snd (executeSync (map processNetwork nets) 1 w))).
Proof.
  induction nets as [|a rest IH]; intros w; cbn [map executeSync].
  - intros _ d [].
  - unfold bind.
    destruct (processNetwork_loads a w) as (n & Hn & _).
    destruct (processNetwork a w) as [[[u|e] w1] e1]; cbn [snd] in Hn.
    + specialize (IH w1).
      destruct (executeSync (map processNetwork rest) 1 w1)
        as [[c w2] e2]; cbn [fst snd] in *.
      intros Hc d [<-|Hd]; rewrite loadsOf_app; apply in_or_app.
      * left. rewrite Hn. now left.
      * right. now apply IH.
    + cbn [fst]. discriminate.
Qed.

(** ** Attempts per network *)

Lemma attemptsOn_app (n : string) (a b : list Event) :
  attemptsOn n (a ++ b) = (attemptsOn n a + attemptsOn n b)%nat.
Proof.
  unfold attemptsOn. now rewrite loadsOf_app, filter_app, length_app.
Qed.

Lemma attemptsOn_repeat (n : string) (d : NetworkData) (k : nat)
    (evs : list Event) :
  loadsOf evs = repeat d k ->
  attemptsOn n evs = if String.eqb (name d) n then k else 0%nat.
Proof.
  unfold attemptsOn. intros ->.
  induction k as [|k IH]; cbn [repeat filter].
  - now destruct (String.eqb (name d) n).
  - destruct (String.eqb (name d) n); cbn [List.length]; now rewrite IH.
Qed.

Lemma networkCall_loads (names : option (list string)) (d : NetworkData)
    (w : World) :
  exists k,
    loadsOf (snd (networkCall names d w)) = repeat d k
    /\ (k <= S (Z.to_nat (maxRetries d)))%nat.
Proof.
  unfold networkCall.
  destruct (filteredOut names d); [exists 0%nat; split; [reflexivity|lia]|].
  destruct (disabled d); [exists 0%nat; split; [reflexivity|lia]|].
  destruct (processNetwork_loads d w) as (n & Hn & Hle).
  exists (S n). split; [exact Hn|lia].
Qed.

Lemma executeSync_attempts_none (names : option (list string))
    (nets : list NetworkData) (n : string) :
  ~ In n (map name nets) ->
  forall w,
    attemptsOn n (snd (executeSync (map (networkCall names) nets) 1 w))
    = 0%nat.
Proof.
  induction nets as [|a rest IH]; intros Hn w; cbn [map executeSync].
  - reflexivity.
  - cbn [map In] in Hn. unfold bind.
    destruct (networkCall_loads names a w) as (k & Hk & _).
    assert (Ha : String.eqb (name a) n = false)
      by (apply String.eqb_neq; tauto).
    destruct (networkCall names a w) as [[[u|e] w1] e1]; cbn [snd] in Hk.
    + specialize (IH ltac:(tauto) w1).
      destruct (executeSync (map (networkCall names) rest) 1 w1)
        as [[c w2] e2]; cbn [snd] in *.
      rewrite attemptsOn_app, IH, (attemptsOn_repeat n a k e1 Hk), Ha.
      reflexivity.
    + cbn [snd]. now rewrite (attemptsOn_repeat n a k e1 Hk), Ha.
Qed.

Lemma executeSync_attempts (names : option (list string))
    (nets : list NetworkData) (d : NetworkData) :
  NoDup (map name nets) -> In d nets ->
  forall w,
    (attemptsOn (name d)
       (snd (executeSync (map (networkCall names) nets) 1 w))
     <= S (Z.to_nat (maxRetries d)))%nat.
Proof.
  induction nets as [|a rest IH]; intros Hnd Hin w; [destruct Hin|].
  cbn [map executeSync]. cbn [map] in Hnd. inversion Hnd as [|x l Hx Hl];
    subst.
  unfold bind.
  destruct (networkCall_loads names a w) as (k & Hk & Hle).
  destruct Hin as [->|Hin].
  - destruct (networkCall names d w) as [[[u|e] w1] e1]; cbn [snd] in Hk.
    + pose proof (executeSync_attempts_none names rest (name d) Hx w1) as H0.
      destruct (executeSync (map (networkCall names) rest) 1 w1)
        as [[c w2] e2]; cbn [snd] in *.
      rewrite attemptsOn_app, H0, (attemptsOn_repeat _ d k e1 Hk),
        String.eqb_refl. lia.
    + cbn [snd]. rewrite (attemptsOn_repeat _ d k e1 Hk), String.eqb_refl.
      lia.
  - assert (Ha : String.eqb (name a) (name d) = false).
    { apply String.eqb_neq. intro E. apply Hx. rewrite E.
      now apply in_map. }
    destruct (networkCall names a w) as [[[u|e] w1] e1]; cbn [snd] in Hk.
    + specialize (IH Hl Hin w1).
      destruct (executeSync (map (networkCall names) rest) 1 w1)
        as [[c w2] e2]; cbn [snd] in *.
      rewrite attemptsOn_app, (attemptsOn_repeat _ a k e1 Hk), Ha. exact IH.
    + cbn [snd]. rewrite (attemptsOn_repeat _ a k e1 Hk), Ha. lia.
Qed.

Lemma attemptsOn_console (n : string) (evs : list Event) :
  console evs -> attemptsOn n evs = 0%nat.
Proof. intros (H & _). unfold attemptsOn. now rewrite H. Qed.

(** ** Lists *)

Lemma lastOf_nth {A} (l : list A) (k : nat) (x : A) :
  nth_error l k = Some x -> List.length l = S k -> lastOf l = Some x.
Proof.
  intros Hk Hlen.
  destruct (nth_error_split l k Hk) as (pre & post & -> & Hpre).
  rewrite length_app in Hlen. cbn [List.length] in Hlen.
  destruct post as [|y post]; [|cbn [List.length] in Hlen; lia].
  apply lastOf_snoc.
Qed.

Lemma lastOf_app_some {A} (a b : list A) (x : A) :
  lastOf b = Some x -> lastOf (a ++ b) = Some x.
Proof.
  unfold lastOf. rewrite rev_app_distr.
  destruct (rev b) as [|y t]; [discriminate|]. now cbn [app].
Qed.

Lemma chained_nth (runs : list (RunArg * NetworkRunner)) :
  forall lastRunner k arg r arg' r',
    chained lastRunner runs ->
    nth_error runs k = Some (arg, r) ->
    nth_error runs (S k) = Some (arg', r') ->
    arg' = limitArg (Some r).
Proof.
  induction runs as [|[a0 r0] rest IH]; intros lastRunner k arg r arg' r' Hc Hk Hk'.
  - destruct k; discriminate.
  - destruct Hc as [_ Hc]. destruct k as [|k]; cbn [nth_error] in *.
    + inversion Hk; subst. destruct rest as [|[a1 r1] rest]; [discriminate|].
      inversion Hk'; subst. now destruct Hc.
    + eapply IH; eassumption.
Qed.

(** ** The claims *)


(** C2.  In every run of runWithRetry, the argument of the run of attempt
    k + 1 is computed from the runner of attempt k alone: it restricts the
    run to exactly that runner's failedAddresses(), or, when those are
    empty, restricts nothing.  The first attempt, which has no prior
    attempt, is run unrestricted. *)
Theorem retry_targets_are_last_failures :
  forall (data : NetworkData) (health : Health) (w : World)
         (k : nat) (arg_k arg_next : RunArg) (r_k r_next : NetworkRunner),
    let runs := runsOf (snd (runWithRetry data health 0 [] w)) in
    nth_error runs k = Some (arg_k, r_k) ->
    nth_error runs (S k) = Some (arg_next, r_next) ->
    arg_next = limitArg (Some r_k)
    /\ restriction arg_next
       = match failedAddresses r_k with
         | [] => None
         | addresses => Some addresses
         end
    /\ match runs with
       | [] => True
       | (arg_first, _) :: _ =>
           arg_first = ArgUndefined /\ restriction arg_first = None
       end.
Proof.
  intros data health w k arg_k arg_next r_k r_next runs Hk Hnext.
  pose proof (RetryRun_chained data health 0 [] w _
                (runWithRetry_run data health 0 [] w)) as Hc.
  fold runs in Hc.
  assert (Harg : arg_next = limitArg (Some r_k))
    by (eapply chained_nth; eassumption).
  split; [exact Harg|]. split.
  - rewrite Harg. unfold limitArg.
    now destruct (failedAddresses r_k).
  - destruct runs as [|[a r] rest]; [exact I|].
    destruct Hc as [-> _]. now split.
Qed.

(** C3.  If the runner of some attempt (the run at position k, counted
    from 0) reports failure with forceFail true, runWithRetry ends there,
    whatever budget is left: that run is the last one, no further load is
    made, and the history returned has exactly k + 1 runners, the last one
    being this runner. *)
Theorem force_fail_ends_the_retries :
  forall (data : NetworkData) (health : Health) (w : World)
         (k : nat) (arg : RunArg) (r : NetworkRunner),
    let out := runWithRetry data health 0 [] w in
    nth_error (runsOf (snd out)) k = Some (arg, r) ->
    reportsFailure r ->
    forceFail r = true ->
    List.length (runsOf (snd out)) = S k
    /\ List.length (loadsOf (snd out)) = S k
    /\ exists history,
         fst (fst out) = Returned (RRunners history)
         /\ List.length history = S k
         /\ lastOf history = Some r.
Proof.
  intros data health w k arg r out Hk Hfail Hforce.
  destruct (RetryRun_forceFail data health 0 [] w out
              (runWithRetry_run data health 0 [] w) k arg r Hk Hfail Hforce)
    as (Hlen & Hloads & Hout).
  split; [exact Hlen|]. split; [exact Hloads|].
  exists (map snd (runsOf (snd out))).
  split; [exact Hout|]. split; [now rewrite length_map|].
  apply (lastOf_nth _ k).
  - change r with (snd (arg, r)). now apply map_nth_error.
  - now rewrite length_map.
Qed.

(** C5, as amended.  For a network that is processed (neither filtered out
    nor disabled) and whose construction yielded a runner on every attempt
    (every load of its processing was followed by a run), the closure
    returns; sendLog is called once per attempt, that is as many times as
    runners were run, at least once; and exactly one of success and failed
    is called, as the last health call. *)
Theorem one_flush_per_attempt_and_one_terminal_mark :
  forall (networkNames : option (list string)) (data : NetworkData)
         (w : World),
    filteredOut networkNames data = false ->
    disabled data = false ->
    everyAttemptRan (snd (networkCall networkNames data w)) ->
    exists w' evs,
      networkCall networkNames data w = (Returned tt, w', evs)
      /\ flushes evs = List.length (runsOf evs)
      /\ List.length (loadsOf evs) = List.length (runsOf evs)
      /\ (1 <= flushes evs)%nat
      /\ terminals evs = 1%nat
      /\ exists c, lastOf (healthOf evs) = Some c /\ isTerminal c = true.
Proof.
  intros networkNames data w Hf Hd.
  unfold networkCall. rewrite Hf, Hd. intros Hevery.
  pose proof (runWithRetry_run data (newHealth data) 0 [] w) as Hrun.
  destruct (processNetwork_cases data w)
    as (c & tail & Ep & T1 & T2 & T3 & Hc).
  cbv zeta in Ep, Hc.
  assert (Hran : List.length
                   (runsOf (snd (runWithRetry data (newHealth data) 0 [] w)))
                 = List.length
                     (loadsOf (snd (runWithRetry data (newHealth data)
                                      0 [] w)))).
  { unfold everyAttemptRan in Hevery. rewrite Ep in Hevery.
    cbn [snd] in Hevery.
    change (OnHealth ?h ?x :: ?l) with ([OnHealth h x] ++ l)%list in Hevery.
    rewrite !runsOf_app, !loadsOf_app, T1, T2 in Hevery.
    cbn [runsOf loadsOf flat_map app] in Hevery.
    now rewrite !app_nil_r in Hevery. }
  destruct (RetryRun_every_attempt_ran data _ 0 [] w _ Hrun Hran)
    as (history & Hout).
  destruct (RetryRun_history data _ 0 [] w _ Hrun) as (Hterm & Hhist).
  destruct (Hhist history Hout) as (Hh & Hl & Hfl & Hne).
  rewrite Hout in Hc.
  destruct (lastOf history) as [r|] eqn:Elast.
  - destruct Hc as (-> & T4 & Hlast).
    eexists _, _. split; [exact Ep|].
    change (OnHealth ?h ?c :: ?l) with ([OnHealth h c] ++ l)%list.
    projections. rewrite T1, T2, T3, T4, Hterm.
    cbn [loadsOf runsOf flushes terminals healthOf flat_map filter app
         isSendLog isTerminal List.length].
    rewrite ?app_nil_r, ?Nat.add_0_r. cbn [Nat.add]. rewrite Hfl.
    split; [reflexivity|]. split; [exact Hl|].
    split; [|split; [reflexivity|]].
    + destruct (runsOf (snd (runWithRetry data (newHealth data) 0 [] w)));
        [congruence|cbn [List.length]; lia].
    + eexists. split.
      * change (started ["⚛"] :: ?l) with ([started ["⚛"]] ++ l)%list.
        repeat apply lastOf_app_some. exact Hlast.
      * now destruct (didSucceed r).
  - exfalso. rewrite Hh in Elast. cbn [app] in Elast.
    unfold lastOf in Elast.
    destruct (runsOf (snd (runWithRetry data (newHealth data) 0 [] w)))
      as [|x l]; [congruence|].
    cbn [map rev] in Elast. destruct (rev (map snd l)); discriminate.
Qed.

(** C7, as amended.  When every non-empty name of a filter that is present
    matches a configured network, run(names) does exactly the processing,
    one after the other and in configuration order, of the configured
    networks whose name is in the filter (all of them when the filter is
    empty) and whose enabled flag is not explicitly false.  The closure of
    a network that is not selected does nothing: no construction, no health
    call.  So every network that is loaded is a selected one, and when the
    invocation returns every selected network was loaded. *)
Theorem run_processes_the_selected_networks :
  forall (names : list string) (w : World),
    (forall n, In n names -> n <> "" -> In n (map name (configured w))) ->
    run (Some names) w
    = (let '(c, w', evs) :=
         executeSync
           (map processNetwork
              (filter (selected (Some names)) (configured w))) 1 w in
       (c, w', (configNotice w ++ evs)%list))
    /\ (forall d, selected (Some names) d = false ->
                  networkCall (Some names) d = ret tt)
    /\ (forall d, In d (loadsOf (snd (run (Some names) w))) ->
                  In d (configured w) /\ selected (Some names) d = true)
    /\ (fst (fst (run (Some names) w)) = Returned tt ->
        forall d, In d (configured w) -> selected (Some names) d = true ->
                  In d (loadsOf (snd (run (Some names) w)))).
Proof.
  intros names w Hvalid. apply invalidName_None in Hvalid.
  assert (Erun : run (Some names) w
    = (let '(c, w', evs) :=
         executeSync
           (map processNetwork
              (filter (selected (Some names)) (configured w))) 1 w in
       (c, w', (configNotice w ++ evs)%list))).
  { rewrite run_eq, Hvalid, executeSync_selected. reflexivity. }
  split; [exact Erun|]. split.
  { intros d Hd. now rewrite networkCall_selected, Hd. }
  rewrite Erun.
  pose proof (fun d => executeSync_loads_in
                (filter (selected (Some names)) (configured w)) d w) as Hin.
  pose proof (executeSync_loads_all
                (filter (selected (Some names)) (configured w)) w) as Hall.
  destruct (executeSync _ 1 w) as [[c w'] evs]. cbn [fst snd] in *.
  destruct (configNotice_console w) as (N1 & _).
  rewrite loadsOf_app, N1. cbn [app]. split.
  - intros d Hd. apply filter_In. now apply Hin.
  - intros Hc d Hd Hsel. apply Hall; [exact Hc|].
    apply filter_In. now split.
Qed.

Lemma invalidName_split (known names : list string) (bad : string) :
  invalidName known names = Some bad ->
  exists pre post,
    names = (pre ++ bad :: post)%list
    /\ forall n, In n pre -> n = "" \/ In n known.
Proof.
  induction names as [|n rest IH]; cbn [invalidName]; [discriminate|].
  destruct (truthy n && negb (includes known n)) eqn:E.
  - intro H; inversion H; subst. exists [], rest.
    split; [reflexivity|intros m []].
  - intro H. destruct (IH H) as (pre & post & -> & Hpre).
    exists (n :: pre), post. split; [reflexivity|].
    intros m [<-|Hm]; [|now apply Hpre].
    apply andb_false_iff in E as [E|E].
    + left. unfold truthy in E. rewrite negb_false_iff in E.
      now apply String.eqb_eq in E.
    + right. rewrite negb_false_iff in E. now apply includes_In.
Qed.

(** C8, as amended.  If some non-empty requested name matches no
    configured network, run stops before processing anything: it writes
    "Invalid network name:" with the first such name, the one before which
    the filter holds only empty and configured names, leaves the world as
    it is and returns; no network is loaded, no runner is run and no health
    reporter is called, also for the names that did match. *)
Theorem unknown_name_aborts_the_run :
  forall (names : list string) (w : World),
    (exists n, In n names /\ n <> ""
               /\ ~ In n (map name (configured w))) ->
    exists pre bad post,
      names = (pre ++ bad :: post)%list
      /\ (forall n, In n pre ->
                    n = "" \/ In n (map name (configured w)))
      /\ In bad names /\ bad <> "" /\ ~ In bad (map name (configured w))
      /\ run (Some names) w
         = (Returned tt, w,
            (configNotice w
             ++ [TimeStamp ["Invalid network name:"; bad]])%list)
      /\ loadsOf (snd (run (Some names) w)) = []
      /\ runsOf (snd (run (Some names) w)) = []
      /\ healthOf (snd (run (Some names) w)) = [].
Proof.
  intros names w (n & Hn & Hne & Hnot).
  destruct (invalidName (map name (configured w)) names) as [bad|] eqn:E.
  - destruct (invalidName_Some _ _ _ E) as (H1 & H2 & H3).
    destruct (invalidName_split _ _ _ E) as (pre & post & Hsplit & Hpre).
    exists pre, bad, post. rewrite run_eq, E. cbn [snd].
    destruct (configNotice_console w) as (N1 & N2 & N3).
    rewrite loadsOf_app, runsOf_app, healthOf_app, N1, N2, N3.
    repeat split; trivial.
  - exfalso. apply Hnot. now apply (proj1 (invalidName_None _ _) E).
Qed.

(** C10.  A configured network whose configuration gives no
    autostake.retries has a retry ceiling of 2: within one invocation of
    run (over networks of distinct names) network.load() is called for it
    at most 3 times, and any one runWithRetry on it makes at most 3
    attempts. *)
Theorem default_retry_ceiling_is_two :
  forall (networkNames : option (list string)) (w : World)
         (data : NetworkData),
    In data (configured w) ->
    NoDup (map name (configured w)) ->
    retriesAbsent data ->
    maxRetries data = 2
    /\ (attemptsOn (name data) (snd (run networkNames w)) <= 3)%nat
    /\ forall health w',
         (List.length (loadsOf (snd (runWithRetry data health 0 [] w')))
          <= 3)%nat.
Proof.
  intros networkNames w data Hin Hnd Habs.
  assert (Hmax : maxRetries data = 2).
  { unfold maxRetries, retriesAbsent in *.
    destruct (autostake data) as [a|]; [now rewrite Habs|reflexivity]. }
  split; [exact Hmax|]. split.
  - destruct networkNames as [names|].
    + rewrite run_eq.
      destruct (invalidName (map name (configured w)) names) as [bad|].
      * cbn [snd]. rewrite attemptsOn_app.
        rewrite (attemptsOn_console _ _ (configNotice_console w)).
        cbn. lia.
      * pose proof (executeSync_attempts (Some names) (configured w) data
                      Hnd Hin w) as Hle.
        destruct (executeSync _ 1 w) as [[c w'] evs]. cbn [snd] in *.
        rewrite attemptsOn_app.
        rewrite (attemptsOn_console _ _ (configNotice_console w)).
        rewrite Hmax in Hle. cbn in Hle. cbn [Nat.add]. exact Hle.
    + rewrite run_absent. cbn [snd].
      rewrite (attemptsOn_console _ _ (configNotice_console w)). lia.
  - intros health w'.
    destruct (RetryRun_loads data health 0 [] w' _
                (runWithRetry_run data health 0 [] w')) as (n & Hn & Hle).
    rewrite Hn, repeat_length. rewrite Hmax in Hle. cbn in Hle. lia.
Qed.

(** * Beyond the claims *)

Lemma lastOf_cons_some {A} (a : A) (l : list A) (x : A) :
  lastOf l = Some x -> lastOf (a :: l) = Some x.
Proof. apply (lastOf_app_some [a]). Qed.

(** Finds the last element of a list given by conses and appends. *)
Ltac last_line :=
  repeat match goal with
         | |- lastOf [_] = _ => fail 1
         | |- lastOf (_ :: _) = _ => apply lastOf_cons_some
         | |- lastOf (_ ++ _) = _ => apply lastOf_app_some
         end;
  reflexivity.

Lemma signable_range (data : NetworkData) (network : Loaded World) :
  signable data network = true
  <-> -2147483648 <= signerSlip44 data network < 2147483648.
Proof.
  unfold signable. rewrite andb_true_iff, Z.leb_le, Z.ltb_lt. tauto.
Qed.

(** X1.  getSigner leaves the world as it is.  The coin type it derives
    the key for is never 0, and is 60 on a chain of coin type 60 whatever
    the autostake configuration says.  When that coin type makes a
    hardened index (it is at least - 2 ** 31 and less than 2 ** 31)
    getSigner resolves to it, having logged "Found ETH coin type" on a
    chain of coin type 60, and "Using HD Path" with the derivation path
    exactly when the coin type is not the default 118.  Otherwise it
    throws, having logged nothing. *)
Theorem getSigner_coin_type :
  forall (data : NetworkData) (network : Loaded World) (w : World),
    signerSlip44 data network <> 0
    /\ (chain_slip44 network = Some 60 -> signerSlip44 data network = 60)
    /\ (-2147483648 <= signerSlip44 data network < 2147483648 ->
        exists evs,
          getSigner data network w
          = (Returned (signerSlip44 data network), w, evs)
          /\ (chain_slip44 network = Some 60 ->
              In (TimeStamp ["Found ETH coin type"]) evs)
          /\ (In (TimeStamp ["Using HD Path";
                             derivationPath (signerSlip44 data network)]) evs
              <-> signerSlip44 data network <> 118))
    /\ (~ -2147483648 <= signerSlip44 data network < 2147483648 ->
        exists msg,
          getSigner data network w = (Thrown (Error msg), w, [])).
Proof.
  intros data network w.
  assert (Hor : forall v, orDefault v 118 <> 0).
  { intros [z|]; unfold orDefault; [|discriminate].
    destruct (Z.eqb_spec z 0); [discriminate|assumption]. }
  assert (Heth : chain_slip44 network = Some 60 ->
                 isEth network = true /\ signerSlip44 data network = 60).
  { intros Hc. unfold signerSlip44, isEth. rewrite Hc.
    cbn [Z.eqb Pos.eqb]. now rewrite orb_true_r. }
  split.
  { unfold signerSlip44. destruct (wantsCorrectSlip44 data || isEth network);
      apply Hor. }
  split; [intros Hc; now apply Heth|].
  rewrite getSigner_eq. split.
  - intros Hr. apply signable_range in Hr.
    destruct (signing_cases data network)
      as [(_ & Es & Ep)|(Hs & _)]; [|congruence].
    exists (signerLines data network). rewrite Es.
    split; [reflexivity|]. unfold signerLines. rewrite Ep.
    rewrite pathToString_hdPath. split.
    + intros Hc. destruct (Heth Hc) as [-> _]. now left.
    + destruct (Z.eqb_spec (signerSlip44 data network) 118) as [E|E].
      * rewrite app_nil_r. split; [|tauto].
        destruct (isEth network); [intros [H|[]]; discriminate|intros []].
      * split; [tauto|]. intros _. apply in_or_app. right. now left.
  - intros Hr.
    destruct (signing_cases data network)
      as [(Hs & _)|(Hs & msg & Es & Ep)];
      [apply signable_range in Hs; contradiction|].
    exists msg. rewrite Es. unfold signerLines. rewrite Ep, app_nil_r.
    destruct (isEth network) eqn:Ee; [exfalso|reflexivity].
    apply Hr. unfold signerSlip44. rewrite Ee, orb_true_r.
    unfold isEth in Ee. destruct (chain_slip44 network) as [c|];
      [|discriminate].
    apply Z.eqb_eq in Ee. subst c. cbn. lia.
Qed.

Lemma signerLines_unsignable (data : NetworkData) (network : Loaded World) :
  signable data network = false -> signerLines data network = [].
Proof.
  intros Hs.
  destruct (signing_cases data network)
    as [(Hs' & _)|(_ & msg & _ & Ep)]; [congruence|].
  unfold signerLines. rewrite Ep, app_nil_r.
  destruct (isEth network) eqn:Ee; [exfalso|reflexivity].
  assert (Hz : signerSlip44 data network = 60).
  { unfold signerSlip44. rewrite Ee, orb_true_r. unfold isEth in Ee.
    destruct (chain_slip44 network) as [c|]; [|discriminate].
    apply Z.eqb_eq in Ee. now subst c. }
  unfold signable in Hs. rewrite Hz in Hs. discriminate.
Qed.

(** X2.  getNetworkRunner calls network.load() once and touches the world
    in no other way.  It settles by the first check that fails, in the
    order load, coin type of the signer, operator, authz support, REST
    URL: a failed load, a coin type that makes no hardened index and a
    missing REST URL throw; a missing operator and missing authz support
    resolve to undefined, and the console line that says which of the two
    it was is the last thing written. *)
Theorem getNetworkRunner_settles_by_first_failed_check :
  forall (data : NetworkData) (w : World),
    let network := fst (loadNetwork data w) in
    let out := getNetworkRunner data w in
    fst (fst out) = construction data network
    /\ snd (fst out) = snd (loadNetwork data w)
    /\ loadsOf (snd out) = [data]
    /\ (loads network = false ->
        out = (Thrown (Error "Unable to load network data for"),
               snd (loadNetwork data w), [NetworkLoad data]))
    /\ (loads network = true -> signable data network = false ->
        exists msg,
          out = (Thrown (Error msg), snd (loadNetwork data w),
                 [NetworkLoad data;
                  TimeStamp ["Loaded"; prettyName network]]))
    /\ (loads network = true -> signable data network = true ->
        operator network = false ->
        fst (fst out) = Returned None
        /\ lastOf (snd out) = Some (TimeStamp ["Not an operator"]))
    /\ (loads network = true -> signable data network = true ->
        operator network = true -> authzSupport network = false ->
        fst (fst out) = Returned None
        /\ lastOf (snd out) = Some (TimeStamp ["No Authz support"]))
    /\ (loads network = true -> signable data network = true ->
        operator network = true -> authzSupport network = true ->
        truthy_opt (restUrl network) = false ->
        fst (fst out) = Thrown (Error "Could not connect to REST API")).
Proof.
  intros data w network out.
  destruct (constructionLines_console data network) as (Hl & _).
  unfold out. rewrite getNetworkRunner_eq.
  fold network. cbn [fst snd].
  split; [reflexivity|]. split; [reflexivity|]. split.
  { rewrite loadsOf_load. now rewrite Hl. }
  unfold construction, constructionLines.
  split; [intros ->; reflexivity|].
  split.
  { intros -> Hs. cbn [negb]. rewrite Hs, (signerLines_unsignable _ _ Hs).
    destruct (signing_cases data network)
      as [(Hs' & _)|(_ & msg & Es & _)]; [congruence|].
    exists msg. rewrite Es. reflexivity. }
  assert (Hsig : signable data network = true ->
                 signing data network
                 = Returned (signerSlip44 data network)).
  { intros Hs. destruct (signing_cases data network)
      as [(_ & Es & _)|(Hs' & _)]; [exact Es|congruence]. }
  split; [intros -> Hs ->; rewrite Hs, (Hsig Hs); cbn [negb andThen];
          split; [reflexivity|last_line]|].
  split; [intros -> Hs -> ->; rewrite Hs, (Hsig Hs); cbn [negb andThen];
          split; [reflexivity|last_line]|].
  intros -> Hs -> -> ->. rewrite (Hsig Hs). reflexivity.
Qed.

(** X3.  The derivation-path warning is written only for a network that
    loaded and whose coin type is set, not 0, and different from the one
    the signer uses; it is never written when autostake.correctSlip44 is
    set, nor on a chain of coin type 60. *)
Theorem path_warning_only_off_the_preferred_path :
  forall (data : NetworkData) (w : World),
    let network := fst (loadNetwork data w) in
    In (TimeStamp ["!! You are not using the preferred derivation path !!"])
       (snd (getNetworkRunner data w)) ->
    loads network = true
    /\ (exists c, chain_slip44 network = Some c /\ c <> 0
                  /\ c <> signerSlip44 data network)
    /\ wantsCorrectSlip44 data = false
    /\ chain_slip44 network <> Some 60.
Proof.
  intros data w network Hin.
  rewrite getNetworkRunner_eq in Hin. fold network in Hin. cbn [snd] in Hin.
  destruct Hin as [Hin|Hin]; [discriminate|].
  unfold constructionLines in Hin.
  destruct (loads network); cbn [negb] in Hin; [|destruct Hin].
  split; [reflexivity|].
  assert (Hoff : offPreferredPath data network = true).
  { destruct (offPreferredPath data network); [reflexivity|exfalso].
    destruct Hin as [Hin|Hin]; [discriminate|].
    apply in_app_or in Hin as [Hin|Hin].
    - unfold signerLines in Hin. apply in_app_or in Hin as [Hin|Hin].
      + destruct (isEth network); [destruct Hin as [H|[]]; discriminate|
                                   destruct Hin].
      + destruct (hdPath (signerSlip44 data network)); [|destruct Hin].
        destruct (Z.eqb (signerSlip44 data network) 118);
          [destruct Hin|destruct Hin as [H|[]]; discriminate].
    - destruct (signable data network); cbn [negb] in Hin; [|destruct Hin].
      destruct Hin as [Hin|Hin]; [discriminate|]. cbn [app] in Hin.
      destruct (operator network); cbn [negb] in Hin;
        [|destruct Hin as [H|[]]; discriminate].
      destruct (authzSupport network); cbn [negb] in Hin;
        [|destruct Hin as [H|[]]; discriminate].
      destruct (truthy_opt (restUrl network)); cbn [negb] in Hin;
        [|destruct Hin].
      destruct Hin as [Hin|Hin]; [discriminate|].
      destruct (usingDirectory network);
        [destruct Hin as [H|[H|[H|[]]]]; discriminate|destruct Hin]. }
  unfold offPreferredPath in Hoff.
  destruct (chain_slip44 network) as [c|] eqn:Ec; [|discriminate].
  apply andb_true_iff in Hoff as [H0 Hs].
  rewrite negb_true_iff in H0, Hs.
  apply Z.eqb_neq in H0. apply Z.eqb_neq in Hs.
  split; [exists c; repeat split; assumption|].
  unfold signerSlip44, isEth in Hs. rewrite Ec in Hs.
  assert (Hsame : orDefault (Some c) 118 = c).
  { unfold orDefault. destruct (Z.eqb_spec c 0); [contradiction|reflexivity]. }
  split.
  - destruct (wantsCorrectSlip44 data); [|reflexivity].
    cbn [orb] in Hs. now rewrite Hsame in Hs.
  - intros E. inversion E; subst c. cbn [Z.eqb Pos.eqb] in Hs.
    rewrite orb_true_r in Hs. now rewrite Hsame in Hs.
Qed.

(** ** logResults, line by line *)

Lemma logResults_lines (health : Health) (networkRunner : NetworkRunner)
    (error message : option string) :
  logs (logResults health (Some networkRunner) error message)
       (resultLines health networkRunner error message).
Proof.
  unfold logResults, resultLines.
  change (OnHealth health (addLogs (queryErrors networkRunner))
          :: countLine health (results networkRunner)
          :: ?rest)%list
    with ([OnHealth health (addLogs (queryErrors networkRunner))]
          ++ (countLine health (results networkRunner) :: rest))%list.
  apply logs_bind; [apply logs_call|].
  change (countLine health (results networkRunner)
          :: (detailLines health (results networkRunner) ++ ?rest))%list
    with ((countLine health (results networkRunner)
           :: detailLines health (results networkRunner)) ++ rest)%list.
  apply logs_bind; [apply logSummary_logs|].
  apply logs_bind.
  { destruct error as [e|]; [destruct (truthy e)|];
      first [apply logs_call|apply logs_ret]. }
  apply logs_bind.
  { destruct message as [m|]; [destruct (truthy m)|];
      first [apply logs_call|apply logs_ret]. }
  apply logs_call.
Qed.

Lemma waitsOf_app (a b : list Event) :
  waitsOf (a ++ b) = (waitsOf a ++ waitsOf b)%list.
Proof. apply flat_map_app. Qed.

Lemma waitsOf_detailLinesFrom (health : Health) (entries : list TxResult)
    (i : nat) :
  waitsOf (detailLinesFrom health i entries) = [].
Proof.
  revert i. induction entries as [|r rest IH]; intro i; [reflexivity|].
  cbn [detailLinesFrom]. unfold detailLine.
  change (OnHealth ?h ?c :: ?l) with ([OnHealth h c] ++ l)%list.
  rewrite waitsOf_app, IH. reflexivity.
Qed.

Lemma waitsOf_resultLines (health : Health) (networkRunner : NetworkRunner)
    (error message : option string) :
  waitsOf (resultLines health networkRunner error message) = [].
Proof.
  unfold resultLines, countLine, detailLines.
  change (OnHealth health ?a :: OnHealth health ?b :: ?l)
    with ([OnHealth health a; OnHealth health b] ++ l)%list.
  rewrite !waitsOf_app, waitsOf_detailLinesFrom.
  destruct error as [e|]; [destruct (truthy e)|];
    (destruct message as [m|]; [destruct (truthy m)|]); reflexivity.
Qed.

Lemma waitsOf_constructionLines (data : NetworkData)
    (network : Loaded World) :
  waitsOf (constructionLines data network) = [].
Proof.
  unfold constructionLines, signerLines, pathWarning.
  destruct (hdPath (signerSlip44 data network));
    repeat match goal with
           | |- context [if ?b then _ else _] => destruct b
           end;
    reflexivity.
Qed.

Lemma attempt_waits (data : NetworkData) (health : Health)
    (runners : list NetworkRunner) (w : World) :
  waitsOf (snd (attempt data health runners w)) = [].
Proof.
  unfold attempt, bind, catching. rewrite getNetworkRunner_eq.
  pose proof (waitsOf_constructionLines data (fst (loadNetwork data w)))
    as Hc.
  destruct (construction data (fst (loadNetwork data w))) as [[handle|]|e];
    unfold ret; cbn [snd]; rewrite ?app_nil_r;
    try (change (NetworkLoad data :: ?l) with ([NetworkLoad data] ++ l)%list;
         rewrite waitsOf_app, Hc; reflexivity).
  unfold runRunner.
  destruct (handle (limitArg (lastOf runners)) (snd (loadNetwork data w)))
    as [ran w2].
  destruct (run_threw ran); [|destruct (didSucceed ran)];
    try rewrite (logResults_lines health ran None None w2);
    cbn [snd]; rewrite ?app_nil_r;
    change (NetworkLoad data :: ?l) with ([NetworkLoad data] ++ l)%list;
    rewrite !waitsOf_app, Hc, ?waitsOf_resultLines; reflexivity.
Qed.

(** ** More on the executions of runWithRetry *)

(** A run that settles as a success is the last thing an execution does,
    and the execution returns the history. *)
Lemma RetryRun_success (data : NetworkData) (health : Health) (retries : Z)
    (runners : list NetworkRunner) (w : World)
    (out : Completion RetryResult * World * list Event) :
  RetryRun data health retries runners w out ->
  forall k arg r,
    nth_error (runsOf (snd out)) k = Some (arg, r) ->
    reportsSuccess r ->
    List.length (runsOf (snd out)) = S k
    /\ List.length (loadsOf (snd out)) = S k
    /\ fst (fst out)
       = Returned (RRunners (runners ++ map snd (runsOf (snd out)))).
Proof.
  intros H. executions H; intros k arg r Hk [Hr1 Hr2].
  - rewrite Hruns in Hk. destruct k; discriminate.
  - rewrite Hruns in Hk. destruct k as [|k]; [|destruct k; discriminate].
    rewrite Hruns, Hloads. repeat split. now rewrite Hhist.
  - rewrite Hruns in Hk. destruct k; discriminate.
  - rewrite Hruns in Hk. destruct k; discriminate.
  - rewrite Hruns, L2 in *. destruct k as [|k]; [|destruct k; discriminate].
    inversion Hk; subst r. destruct Hfail as [Hf|Hf]; congruence.
  - rewrite Hruns, L2 in *. rewrite Hloads, L1. cbn [app] in *.
    destruct k as [|k].
    + inversion Hk; subst r. destruct Hfail as [Hf|Hf]; congruence.
    + cbn [nth_error] in Hk.
      destruct (IH k arg r Hk (conj Hr1 Hr2)) as (Hlen & Hl & Hout).
      cbn [List.length map snd]. rewrite Hlen, Hl. repeat split.
      rewrite Hout, Hhist, <- app_assoc. reflexivity.
Qed.

(** In every execution, returning or raising: a report is flushed once per
    run, every run follows a load of its own, and at most the last load is
    not followed by a run. *)
Lemma RetryRun_counts (data : NetworkData) (health : Health) (retries : Z)
    (runners : list NetworkRunner) (w : World)
    (out : Completion RetryResult * World * list Event) :
  RetryRun data health retries runners w out ->
  flushes (snd out) = List.length (runsOf (snd out))
  /\ (List.length (runsOf (snd out)) <= List.length (loadsOf (snd out))
      <= S (List.length (runsOf (snd out))))%nat.
Proof.
  intros H. executions H.
  - rewrite Hloads, Hruns. unfold flushes. rewrite Hhealth. cbn. lia.
  - rewrite Hloads, Hruns, Hflush. cbn. lia.
  - rewrite Hloads, Hruns. unfold flushes. rewrite Hhealth. cbn. lia.
  - rewrite Hloads, Hruns. unfold flushes. rewrite Hhealth. cbn. lia.
  - rewrite Hloads, Hruns, Hflush, L1, L2, L3. cbn. lia.
  - rewrite Hloads, Hruns, Hflush, L1, L2, L3. cbn [app List.length].
    destruct IH as (IH1 & IH2). rewrite IH1. lia.
Qed.

(** In every execution there is one wait of 30 seconds between two
    consecutive loads, and no other fixed wait. *)
Lemma RetryRun_waits (data : NetworkData) (health : Health) (retries : Z)
    (runners : list NetworkRunner) (w : World)
    (out : Completion RetryResult * World * list Event) :
  RetryRun data health retries runners w out ->
  waitsOf (snd out)
  = repeat (30 * 1000) (List.length (loadsOf (snd out)) - 1).
Proof.
  intros H.
  induction H as
    [ retries runners w result w1 evs Hatt
    | retries runners w runners' error w1 evs Hatt Hlt
    | retries runners w runners' error w1 evs Hatt Hge
    | retries runners w networkRunner runners' error w1 evs Hatt Hstop
    | retries runners w networkRunner runners' error w1 evs c w2 evs2
        Hatt Hlt Hff Hrec IH ];
    pose proof (attempt_waits data health runners w) as Hw;
    rewrite Hatt in Hw; cbn [snd] in Hw;
    apply attempt_inv in Hatt; cbv zeta in Hatt;
    destruct Hatt as (Hloads & _); cbn [snd] in *.
  - now rewrite Hw, Hloads.
  - now rewrite Hw, Hloads.
  - now rewrite Hw, Hloads.
  - rewrite (logResults_lines health networkRunner error None w1).
    cbn [snd]. rewrite waitsOf_app, loadsOf_app, Hw, Hloads.
    rewrite waitsOf_resultLines.
    destruct (logResults_events health networkRunner error None w1)
      as (L1 & _).
    rewrite (logResults_lines health networkRunner error None w1) in L1.
    cbn [snd] in L1. rewrite L1. reflexivity.
  - match goal with
    | |- context [logResults health (Some networkRunner) error ?m w1] =>
        destruct (logResults_events health networkRunner error m w1)
          as (L1 & _);
        rewrite (logResults_lines health networkRunner error m w1) in *
    end.
    cbn [snd] in *.
    change (SetTimeout (Some (30 * 1000)) :: evs2)
      with ([SetTimeout (Some (30 * 1000))] ++ evs2)%list.
    rewrite !waitsOf_app, !loadsOf_app, Hw, Hloads, L1,
      waitsOf_resultLines, IH.
    cbn [loadsOf flat_map waitsOf app List.length].
    destruct (RetryRun_loads data health _ _ _ _ Hrec) as (n & Hn & _).
    cbn [snd] in Hn. rewrite Hn, repeat_length.
    cbn [Nat.sub repeat]. rewrite Nat.sub_0_r. reflexivity.
Qed.

(** X4.  If the run at position k, counted from 0, settles as a success
    (run resolved and didSucceed() is true), runWithRetry ends there: that
    run is the last one, no further load is made, and the history returned
    has exactly k + 1 runners, the last one being this runner. *)
Theorem success_ends_the_retries :
  forall (data : NetworkData) (health : Health) (w : World)
         (k : nat) (arg : RunArg) (r : NetworkRunner),
    let out := runWithRetry data health 0 [] w in
    nth_error (runsOf (snd out)) k = Some (arg, r) ->
    reportsSuccess r ->
    List.length (runsOf (snd out)) = S k
    /\ List.length (loadsOf (snd out)) = S k
    /\ exists history,
         fst (fst out) = Returned (RRunners history)
         /\ List.length history = S k
         /\ lastOf history = Some r.
Proof.
  intros data health w k arg r out Hk Hok.
  destruct (RetryRun_success data health 0 [] w out
              (runWithRetry_run data health 0 [] w) k arg r Hk Hok)
    as (Hlen & Hloads & Hout).
  split; [exact Hlen|]. split; [exact Hloads|].
  exists (map snd (runsOf (snd out))).
  split; [exact Hout|]. split; [now rewrite length_map|].
  apply (lastOf_nth _ k).
  - change r with (snd (arg, r)). now apply map_nth_error.
  - now rewrite length_map.
Qed.

(** X5.  Whatever the collaborators do and however runWithRetry ends, by a
    return or by an exception: it loads the network at least once; every
    run of a runner follows a load of its own, and only the last load may
    have no run; the report is flushed exactly once per run; and
    runWithRetry itself never calls success or failed. *)
Theorem retry_loads_runs_and_flushes :
  forall (data : NetworkData) (health : Health) (retries : Z)
         (runners : list NetworkRunner) (w : World),
    let evs := snd (runWithRetry data health retries runners w) in
    (1 <= List.length (loadsOf evs))%nat
    /\ (List.length (runsOf evs) <= List.length (loadsOf evs)
        <= S (List.length (runsOf evs)))%nat
    /\ flushes evs = List.length (runsOf evs)
    /\ terminals evs = 0%nat
    /\ Forall (eq data) (loadsOf evs).
Proof.
  intros data health retries runners w evs.
  pose proof (runWithRetry_run data health retries runners w) as Hrun.
  destruct (RetryRun_loads _ _ _ _ _ _ Hrun) as (n & Hn & _).
  destruct (RetryRun_counts _ _ _ _ _ _ Hrun) as (Hf & Hle).
  destruct (RetryRun_history _ _ _ _ _ _ Hrun) as (Ht & _).
  fold evs in Hn, Hf, Hle, Ht.
  split; [rewrite Hn, repeat_length; lia|].
  split; [exact Hle|]. split; [exact Hf|]. split; [exact Ht|].
  rewrite Hn. apply Forall_forall. intros x Hx.
  apply repeat_spec in Hx. now subst.
Qed.

(** X6.  runWithRetry waits exactly 30 seconds between two consecutive
    attempts and makes no other fixed wait: with n loads it waits n - 1
    times, so not at all when the first attempt is the last. *)
Theorem one_wait_between_attempts :
  forall (data : NetworkData) (health : Health) (retries : Z)
         (runners : list NetworkRunner) (w : World),
    let evs := snd (runWithRetry data health retries runners w) in
    waitsOf evs = repeat 30000 (List.length (loadsOf evs) - 1).
Proof.
  intros data health retries runners w evs.
  apply (RetryRun_waits data health retries runners w _
           (runWithRetry_run data health retries runners w)).
Qed.

(** X7.  When runWithRetry returns a history, it is the runners array it
    was given, in the same order, followed by the runners it ran, one per
    run and in run order; it is never empty. *)
Theorem returned_history_lists_the_runs :
  forall (data : NetworkData) (health : Health) (retries : Z)
         (runners history : list NetworkRunner) (w : World),
    let out := runWithRetry data health retries runners w in
    fst (fst out) = Returned (RRunners history) ->
    history = (runners ++ map snd (runsOf (snd out)))%list
    /\ List.length history
       = (List.length runners + List.length (runsOf (snd out)))%nat
    /\ history <> [].
Proof.
  intros data health retries runners history w out Hout.
  destruct (RetryRun_history data health retries runners w out
              (runWithRetry_run data health retries runners w))
    as (_ & Hhist).
  destruct (Hhist history Hout) as (Hh & _ & _ & Hne).
  split; [exact Hh|]. split.
  - now rewrite Hh, length_app, length_map.
  - rewrite Hh. destruct (runsOf (snd out)); [congruence|].
    intro E. apply app_eq_nil in E as [_ E]. discriminate.
Qed.

(** X8.  With a retry ceiling of 0 or less (autostake.retries set to 0 or
    to a negative number) runWithRetry makes exactly one attempt and never
    waits, whatever the runner reports. *)
Theorem no_retry_without_budget :
  forall (data : NetworkData) (health : Health) (w : World),
    maxRetries data <= 0 ->
    let evs := snd (runWithRetry data health 0 [] w) in
    loadsOf evs = [data]
    /\ (List.length (runsOf evs) <= 1)%nat
    /\ waitsOf evs = [].
Proof.
  intros data health w Hm evs.
  pose proof (runWithRetry_run data health 0 [] w) as Hrun.
  destruct (RetryRun_loads _ _ _ _ _ _ Hrun) as (n & Hn & Hle).
  destruct (RetryRun_counts _ _ _ _ _ _ Hrun) as (_ & Hruns).
  pose proof (RetryRun_waits _ _ _ _ _ _ Hrun) as Hw.
  fold evs in Hn, Hruns, Hw.
  assert (n = 0%nat) by lia. subst n.
  rewrite Hn in *. cbn [repeat List.length] in *.
  split; [reflexivity|]. split; [lia|]. exact Hw.
Qed.

Lemma chained_args (runs : list (RunArg * NetworkRunner)) :
  forall lastRunner,
    chained lastRunner runs ->
    Forall (fun run => exists prev, fst run = limitArg prev) runs.
Proof.
  induction runs as [|[a r] rest IH]; intros lastRunner Hc;
    constructor.
  - exists lastRunner. now destruct Hc.
  - destruct Hc as [_ Hc]. now apply (IH (Some r)).
Qed.

(** X9.  No runner is ever run with an empty list of addresses: the
    argument of every run is undefined, the number 0, or a non-empty list.
    A runner that failed without naming any failed address is retried on
    its full target set. *)
Theorem never_restricted_to_nothing :
  forall (data : NetworkData) (health : Health) (retries : Z)
         (runners : list NetworkRunner) (w : World)
         (arg : RunArg) (r : NetworkRunner),
    In (arg, r) (runsOf (snd (runWithRetry data health retries runners w))) ->
    arg <> ArgAddresses [] /\ restriction arg <> Some [].
Proof.
  intros data health retries runners w arg r Hin.
  pose proof (RetryRun_chained data health retries runners w _
                (runWithRetry_run data health retries runners w)) as Hc.
  apply chained_args in Hc. rewrite Forall_forall in Hc.
  destruct (Hc _ Hin) as (prev & Hp). cbn [fst] in Hp. subst arg.
  unfold limitArg. destruct prev as [p|]; [|split; discriminate].
  destruct (failedAddresses p); split; discriminate.
Qed.

(** ** The closure of run *)

Lemma logAttempts_logs (health : Health) (runners : list NetworkRunner)
    (i : nat) :
  logs (logAttempts health (Z.of_nat i) runners)
       (attemptLinesFrom health i runners).
Proof.
  revert i. induction runners as [|r rest IH]; intro i;
    cbn [logAttempts attemptLinesFrom].
  - apply logs_ret.
  - change (OnHealth health ?c :: countLine health ?e :: ?l ++ ?t)%list
      with ([OnHealth health c] ++ (countLine health e :: l) ++ t)%list.
    apply logs_bind; [apply logs_call|].
    apply logs_bind; [apply logSummary_logs|].
    replace (Z.of_nat i + 1) with (Z.of_nat (S i)) by lia. apply IH.
Qed.

Lemma lastOf_nonempty {A} (l : list A) :
  l <> [] -> exists x, lastOf l = Some x.
Proof.
  intros Hne. unfold lastOf. destruct (rev l) as [|x t] eqn:E.
  - exfalso. apply Hne. apply (f_equal (@rev A)) in E.
    now rewrite rev_involutive in E.
  - now exists x.
Qed.

(** X10.  When runWithRetry returns a history of n runners, the closure of
    run returns after logging, in this order: "Autostake completed in n
    attempt(s)"; for every runner of the history, in order, the line
    "Attempt i:" followed by that runner's summary; and one terminal mark,
    success("Autostake finished") when didSucceed() of the last runner is
    true and failed("Autostake failed") otherwise.  Nothing is flushed
    after the retries. *)
Theorem attempt_log_and_terminal_mark :
  forall (data : NetworkData) (w : World) (history : list NetworkRunner),
    let health := newHealth data in
    let out := runWithRetry data health 0 [] w in
    fst (fst out) = Returned (RRunners history) ->
    exists r,
      lastOf history = Some r
      /\ processNetwork data w
         = (Returned tt, snd (fst out),
            (OnHealth health (started ["⚛"])
             :: snd out
             ++ OnHealth health
                  (log [("Autostake completed in "
                         ++ decimal (Z.of_nat (List.length history))
                         ++ " attempt(s)")%string])
             :: attemptLinesFrom health 0 history
             ++ [terminalMark health r])%list)
      /\ flushes (snd (processNetwork data w)) = flushes (snd out).
Proof.
  intros data w history health out Hout.
  assert (Hne : history <> []).
  { destruct (RetryRun_history data health 0 [] w out
                (runWithRetry_run data health 0 [] w)) as (_ & Hhist).
    destruct (Hhist history Hout) as (Hh & _ & _ & Hruns).
    rewrite Hh. cbn [app]. destruct (runsOf (snd out)); [congruence|].
    discriminate. }
  destruct (lastOf_nonempty history Hne) as (r & Hr).
  exists r. split; [exact Hr|].
  assert (E : processNetwork data w
    = (Returned tt, snd (fst out),
       (OnHealth health (started ["⚛"])
        :: snd out
        ++ OnHealth health
             (log [("Autostake completed in "
                    ++ decimal (Z.of_nat (List.length history))
                    ++ " attempt(s)")%string])
        :: attemptLinesFrom health 0 history
        ++ [terminalMark health r])%list)).
  { unfold processNetwork. fold health.
    rewrite (logs_then _ _ _ w (logs_call _ _)).
    unfold bind at 1. fold out.
    destruct out as [[c w1] evs]. cbn [fst snd] in *. subst c.
    rewrite (logs_then _ _ _ w1
               (logs_bind _ _ _ _ (logs_call _ _)
                  (logAttempts_logs health history 0))).
    unfold lastResult. rewrite Hr. unfold terminalMark.
    destruct (didSucceed r); unfold call, emit; cbn [app]; reflexivity. }
  split; [exact E|].
  rewrite E. cbn [snd].
  change (flushes
            ([OnHealth health (started ["⚛"])]
             ++ snd out
             ++ [OnHealth health
                   (log [("Autostake completed in "
                          ++ decimal (Z.of_nat (List.length history))
                          ++ " attempt(s)")%string])]
             ++ attemptLinesFrom health 0 history
             ++ [terminalMark health r])%list
          = flushes (snd out)).
  rewrite !flushes_app.
  assert (Hlines : forall i l, flushes (attemptLinesFrom health i l) = 0%nat).
  { intros i l. destruct (notes_logAttempts health l (Z.of_nat i))
      as (e & He & (_ & _ & Hf & _)).
    pose proof (logAttempts_logs health l i w) as H1.
    rewrite (He w) in H1. inversion H1; subst. exact Hf. }
  rewrite Hlines. unfold terminalMark.
  destruct (didSucceed r); cbn; lia.
Qed.


Lemma flushes_detailLinesFrom (health : Health) (entries : list TxResult)
    (i : nat) :
  flushes (detailLinesFrom health i entries) = 0%nat.
Proof.
  revert i. induction entries as [|r rest IH]; intro i; [reflexivity|].
  cbn [detailLinesFrom]. unfold detailLine.
  change (OnHealth ?h ?c :: ?l) with ([OnHealth h c] ++ l)%list.
  rewrite flushes_app, IH. reflexivity.
Qed.

(** X12.  With a runner at hand logResults only logs, in this order: the
    runner's query errors, its summary, "Failed with error: ..." when an
    error message is given and not empty, the message when one is given
    and not empty, and last of all the flush; without an error and a
    message only the query errors and the summary are flushed.  Without a
    runner it raises a TypeError before any health call. *)
Theorem logResults_lines_in_order :
  forall (health : Health) (networkRunner : NetworkRunner)
         (error message : option string),
    logs (logResults health (Some networkRunner) error message)
         (resultLines health networkRunner error message)
    /\ lastOf (resultLines health networkRunner error message)
       = Some (OnHealth health sendLog)
    /\ flushes (resultLines health networkRunner error message) = 1%nat
    /\ resultLines health networkRunner None None
       = (OnHealth health (addLogs (queryErrors networkRunner))
          :: countLine health (results networkRunner)
          :: detailLines health (results networkRunner)
          ++ [OnHealth health sendLog])%list
    /\ resultLines health networkRunner (Some "") (Some "")
       = resultLines health networkRunner None None
    /\ forall w,
         logResults health None error message w
         = (Thrown (TypeError
              "Cannot read properties of undefined (reading 'queryErrors')"),
            w, []).
Proof.
  intros health networkRunner error message.
  split; [apply logResults_lines|].
  split; [unfold resultLines; last_line|].
  split.
  { unfold resultLines, countLine, detailLines.
    change (OnHealth health ?a :: OnHealth health ?b :: ?l)
      with ([OnHealth health a; OnHealth health b] ++ l)%list.
    rewrite !flushes_app, flushes_detailLinesFrom.
    destruct error as [e|]; [destruct (truthy e)|];
      (destruct message as [m|]; [destruct (truthy m)|]); reflexivity. }
  split; [reflexivity|]. split; [reflexivity|].
  intro w. reflexivity.
Qed.

(** X13.  The count logSummary reports is never negative and never more
    than the total; it equals the total exactly when no result carries a
    (truthy) error. *)
Theorem successCount_bounds :
  forall (health : Health) (networkRunner : NetworkRunner),
    let entries := results networkRunner in
    logs (logSummary health networkRunner)
         (countLine health entries :: detailLines health entries)
    /\ 0 <= successCount entries <= totalCount entries
    /\ (successCount entries = totalCount entries
        <-> Forall (fun result => carriesError result = false) entries).
Proof.
  intros health networkRunner entries.
  split; [apply logSummary_logs|].
  unfold successCount, totalCount.
  pose proof (filter_length_le carriesError entries) as Hle.
  split; [lia|]. split.
  - intros H.
    assert (Hz : List.length (filter carriesError entries) = 0%nat) by lia.
    apply length_zero_iff_nil in Hz.
    apply Forall_forall. intros x Hx.
    destruct (carriesError x) eqn:E; [|reflexivity].
    assert (Hin : In x (filter carriesError entries))
      by (apply filter_In; now split).
    rewrite Hz in Hin. destruct Hin.
  - intros H. rewrite Forall_forall in H.
    assert (Hz : filter carriesError entries = []).
    { destruct (filter carriesError entries) as [|x t] eqn:E;
        [reflexivity|].
      assert (Hin : In x (filter carriesError entries))
        by (rewrite E; now left).
      apply filter_In in Hin as [Hin Hc]. rewrite (H x Hin) in Hc.
      discriminate. }
    rewrite Hz. cbn. lia.
Qed.

(** ** More on the scheduler *)

Lemma networkCall_loads_in (names : option (list string))
    (d d' : NetworkData) (w : World) :
  In d' (loadsOf (snd (networkCall names d w))) ->
  d' = d /\ disabled d = false /\ filteredOut names d = false.
Proof.
  unfold networkCall.
  destruct (filteredOut names d); [intros []|].
  destruct (disabled d); [intros []|].
  destruct (processNetwork_loads d w) as (n & Hn & _). rewrite Hn.
  intro H. apply repeat_spec in H. now repeat split.
Qed.

Lemma executeSync_networkCall_loads_in (names : option (list string))
    (nets : list NetworkData) (d : NetworkData) :
  forall w,
    In d (loadsOf (snd (executeSync (map (networkCall names) nets) 1 w))) ->
    In d nets /\ disabled d = false /\ filteredOut names d = false.
Proof.
  induction nets as [|a rest IH]; intros w; cbn [map executeSync].
  - intros [].
  - unfold bind.
    pose proof (networkCall_loads_in names a d w) as Ha.
    destruct (networkCall names a w) as [[[u|e] w1] e1]; cbn [snd] in *.
    + specialize (IH w1).
      destruct (executeSync (map (networkCall names) rest) 1 w1)
        as [[c w2] e2]; cbn [snd] in *.
      rewrite loadsOf_app. intro H. apply in_app_or in H as [H|H].
      * destruct (Ha H) as (-> & H1 & H2). repeat split; trivial. now left.
      * destruct (IH H) as (H0 & H1 & H2). repeat split; trivial. now right.
    + intro H. destruct (Ha H) as (-> & H1 & H2).
      repeat split; trivial. now left.
Qed.

(** X14.  Whatever the filter, a network that run loads is a configured
    one whose enabled flag is not explicitly false; the filter was present
    and passed the validation of names; and the network's name is in the
    filter unless the filter is empty. *)
Theorem only_enabled_named_networks_are_loaded :
  forall (networkNames : option (list string)) (w : World)
         (d : NetworkData),
    In d (loadsOf (snd (run networkNames w))) ->
    In d (configured w)
    /\ enabled d <> Some false
    /\ exists names,
         networkNames = Some names
         /\ (names = [] \/ In (name d) names)
         /\ (forall n, In n names -> n <> "" ->
                       In n (map name (configured w))).
Proof.
  intros networkNames w d Hin.
  destruct (configNotice_console w) as (N1 & _).
  destruct networkNames as [names|].
  2:{ rewrite run_absent in Hin. cbn [snd] in Hin. rewrite N1 in Hin.
      destruct Hin. }
  rewrite run_eq in Hin.
  destruct (invalidName (map name (configured w)) names) as [bad|] eqn:E.
  { cbn [snd] in Hin. rewrite loadsOf_app, N1 in Hin. destruct Hin. }
  pose proof (executeSync_networkCall_loads_in (Some names) (configured w)
                d w) as Hex.
  destruct (executeSync _ 1 w) as [[c w'] evs]. cbn [snd] in *.
  rewrite loadsOf_app, N1 in Hin. cbn [app] in Hin.
  destruct (Hex Hin) as (H0 & H1 & H2).
  split; [exact H0|]. split.
  - unfold disabled in H1. intro Hd. rewrite Hd in H1. discriminate.
  - exists names. split; [reflexivity|]. split.
    + unfold filteredOut in H2. destruct names as [|n l]; [now left|right].
      cbn [List.length Nat.eqb negb andb] in H2.
      rewrite negb_false_iff in H2. now apply includes_In.
    + now apply invalidName_None.
Qed.

Lemma executeSync_all_skipped (names : option (list string))
    (nets : list NetworkData) :
  (forall d, In d nets -> filteredOut names d = true) ->
  forall w,
    executeSync (map (networkCall names) nets) 1 w = (Returned tt, w, []).
Proof.
  induction nets as [|a rest IH]; intros Hall w; [reflexivity|].
  cbn [map executeSync]. unfold bind, networkCall.
  rewrite (Hall a (or_introl eq_refl)). unfold ret.
  rewrite IH; [reflexivity|]. intros d Hd. apply Hall. now right.
Qed.

(** X15.  A filter that is not empty but holds only empty names passes the
    validation and then selects nothing: over a configuration without a
    network of empty name, run returns without loading any network,
    calling any health reporter or reporting an invalid name. *)
Theorem blank_names_select_nothing :
  forall (names : list string) (w : World),
    names <> [] ->
    (forall n, In n names -> n = "") ->
    ~ In "" (map name (configured w)) ->
    run (Some names) w = (Returned tt, w, configNotice w).
Proof.
  intros names w Hne Hblank Hno.
  rewrite run_eq.
  assert (Hv : invalidName (map name (configured w)) names = None).
  { apply invalidName_None. intros n Hn Hnz. now apply Hblank in Hn. }
  rewrite Hv, executeSync_all_skipped; [now rewrite app_nil_r|].
  intros d Hd. unfold filteredOut.
  destruct names as [|n l]; [congruence|].
  cbn [List.length Nat.eqb negb andb]. rewrite negb_true_iff.
  destruct (includes (n :: l) (name d)) eqn:E; [|reflexivity].
  apply includes_In in E. apply Hblank in E. exfalso. apply Hno.
  rewrite <- E. now apply in_map.
Qed.

Lemma invalidName_first (known pre post : list string) (bad : string) :
  (forall n, In n pre -> n = "" \/ In n known) ->
  bad <> "" -> ~ In bad known ->
  invalidName known (pre ++ bad :: post)%list = Some bad.
Proof.
  intros Hpre Hbad Hnot. induction pre as [|n pre IH]; cbn [app invalidName].
  - assert (E1 : truthy bad = true) by now apply truthy_true.
    assert (E2 : includes known bad = false).
    { destruct (includes known bad) eqn:E; [|reflexivity].
      apply includes_In in E. contradiction. }
    now rewrite E1, E2.
  - assert (E : truthy n && negb (includes known n) = false).
    { destruct (Hpre n (or_introl eq_refl)) as [->|Hin]; [reflexivity|].
      apply includes_In in Hin. rewrite Hin. apply andb_false_r. }
    rewrite E. apply IH. intros m Hm. apply Hpre. now right.
Qed.

(** X16.  The invalid name run reports is the first name of the filter, in
    filter order, that is not empty and matches no configured network;
    names after it are not looked at, and run returns with the world as it
    was. *)
Theorem first_unknown_name_is_reported :
  forall (pre post : list string) (bad : string) (w : World),
    (forall n, In n pre -> n = "" \/ In n (map name (configured w))) ->
    bad <> "" ->
    ~ In bad (map name (configured w)) ->
    run (Some (pre ++ bad :: post)%list) w
    = (Returned tt, w,
       (configNotice w ++ [TimeStamp ["Invalid network name:"; bad]])%list).
Proof.
  intros pre post bad w Hpre Hbad Hnot.
  now rewrite run_eq, (invalidName_first _ pre post bad Hpre Hbad Hnot).
Qed.

Lemma no_counts (nets : list NetworkData) :
  flat_map (fun p : NetworkData * nat => repeat (fst p) (snd p))
    (combine nets (repeat 0%nat (List.length nets))) = []
  /\ Forall2 (fun d k => (k <= S (Z.to_nat (maxRetries d)))%nat) nets
       (repeat 0%nat (List.length nets)).
Proof.
  induction nets as [|a rest [IH1 IH2]]; cbn; [now split|].
  split; [exact IH1|]. constructor; [lia|exact IH2].
Qed.

Lemma executeSync_in_order (names : option (list string))
    (nets : list NetworkData) :
  forall w,
    exists counts,
      loadsOf (snd (executeSync (map (networkCall names) nets) 1 w))
      = flat_map (fun p : NetworkData * nat => repeat (fst p) (snd p))
          (combine nets counts)
      /\ Forall2 (fun d k => (k <= S (Z.to_nat (maxRetries d)))%nat)
           nets counts.
Proof.
  induction nets as [|a rest IH]; intros w; cbn [map executeSync].
  - exists []. split; [reflexivity|constructor].
  - unfold bind.
    destruct (networkCall_loads names a w) as (k & Hk & Hle).
    destruct (networkCall names a w) as [[[u|e] w1] e1]; cbn [snd] in *.
    + destruct (IH w1) as (counts & Hc & Hf).
      destruct (executeSync (map (networkCall names) rest) 1 w1)
        as [[c w2] e2]; cbn [snd] in *.
      exists (k :: counts). split.
      * rewrite loadsOf_app, Hk, Hc. reflexivity.
      * now constructor.
    + destruct (no_counts rest) as (Hz & Hf).
      exists (k :: repeat 0%nat (List.length rest)). split.
      * cbn [combine flat_map fst snd]. now rewrite Hz, app_nil_r.
      * now constructor.
Qed.

(** X17.  run loads the networks in configuration order and never goes
    back: the sequence of its loads is, for the configured networks taken
    in order, some number of consecutive loads of each (none for a network
    that is skipped or not reached), never more than its retry ceiling
    plus one. *)
Theorem networks_are_loaded_in_configuration_order :
  forall (networkNames : option (list string)) (w : World),
    exists counts,
      loadsOf (snd (run networkNames w))
      = flat_map (fun p : NetworkData * nat => repeat (fst p) (snd p))
          (combine (configured w) counts)
      /\ Forall2 (fun d k => (k <= S (Z.to_nat (maxRetries d)))%nat)
           (configured w) counts.
Proof.
  intros networkNames w.
  destruct (configNotice_console w) as (N1 & _).
  destruct (no_counts (configured w)) as (Hz & Hf).
  destruct networkNames as [names|].
  2:{ exists (repeat 0%nat (List.length (configured w))).
      rewrite run_absent. cbn [snd]. now rewrite N1, Hz. }
  rewrite run_eq.
  destruct (invalidName (map name (configured w)) names) as [bad|].
  { exists (repeat 0%nat (List.length (configured w))).
    cbn [snd]. rewrite loadsOf_app, N1, Hz. now split. }
  destruct (executeSync_in_order (Some names) (configured w) w)
    as (counts & Hc & Hle).
  exists counts.
  destruct (executeSync _ 1 w) as [[c w'] evs]. cbn [snd] in *.
  rewrite loadsOf_app, N1. now split.
Qed.

(** X18.  Called without a filter (undefined), run raises a TypeError at
    its validation loop: the configuration was read, but no network is
    loaded and no health reporter is called. *)
Theorem absent_filter_raises :
  forall (w : World),
    exists msg,
      run None w = (Thrown (TypeError msg), w, configNotice w)
      /\ loadsOf (snd (run None w)) = []
      /\ runsOf (snd (run None w)) = []
      /\ healthOf (snd (run None w)) = [].
Proof.
  intros w. eexists. rewrite run_absent. split; [reflexivity|].
  cbn [snd]. destruct (configNotice_console w) as (N1 & N2 & N3).
  now repeat split.
Qed.

End Properties.

(** * The claims in the concrete setting *)

Import Scene.


Lemma retry_targets_are_last_failures_witness :
  nth_error
    (runsOf (snd (runWithRetry (env := scene [bravo]) bravo health 0 []
                    0%nat))) 0
  = Some (ArgUndefined, settles false false ["cosmos1b"])
  /\ nth_error
       (runsOf (snd (runWithRetry (env := scene [bravo]) bravo health 0 []
                       0%nat))) 1
     = Some (ArgAddresses ["cosmos1b"], settles false true ["cosmos1b"])
  /\ restriction (ArgAddresses ["cosmos1b"]) = Some ["cosmos1b"].
Proof.
  assert (H0 : nth_error
                 (runsOf (snd (runWithRetry (env := scene [bravo]) bravo
                                 health 0 [] 0%nat))) 0
               = Some (ArgUndefined, settles false false ["cosmos1b"]))
    by (vm_compute; reflexivity).
  assert (H1 : nth_error
                 (runsOf (snd (runWithRetry (env := scene [bravo]) bravo
                                 health 0 [] 0%nat))) 1
               = Some (ArgAddresses ["cosmos1b"],
                       settles false true ["cosmos1b"]))
    by (vm_compute; reflexivity).
  split; [exact H0|]. split; [exact H1|].
  exact (proj1 (proj2 (retry_targets_are_last_failures (env := scene [bravo])
                         bravo health 0%nat 0%nat _ _ _ _ H0 H1))).
Defined.

Lemma force_fail_ends_the_retries_witness :
  maxRetries bravo = 5
  /\ nth_error
       (runsOf (snd (runWithRetry (env := scene [bravo]) bravo health 0 []
                       0%nat))) 1
     = Some (ArgAddresses ["cosmos1b"], settles false true ["cosmos1b"])
  /\ List.length
       (runsOf (snd (runWithRetry (env := scene [bravo]) bravo health 0 []
                       0%nat))) = 2%nat
  /\ List.length
       (loadsOf (snd (runWithRetry (env := scene [bravo]) bravo health 0 []
                        0%nat))) = 2%nat.
Proof.
  assert (H1 : nth_error
                 (runsOf (snd (runWithRetry (env := scene [bravo]) bravo
                                 health 0 [] 0%nat))) 1
               = Some (ArgAddresses ["cosmos1b"],
                       settles false true ["cosmos1b"]))
    by (vm_compute; reflexivity).
  split; [reflexivity|]. split; [exact H1|].
  destruct (force_fail_ends_the_retries (env := scene [bravo]) bravo health
              0%nat 1%nat _ _ H1 (or_intror eq_refl) eq_refl)
    as (Hruns & Hloads & _).
  split; assumption.
Defined.

Lemma one_flush_per_attempt_and_one_terminal_mark_witness :
  everyAttemptRan
    (snd (networkCall (env := scene [alpha; bravo; charlie])
            (Some ["bravo"]) bravo 0%nat))
  /\ exists w' evs,
       networkCall (env := scene [alpha; bravo; charlie]) (Some ["bravo"])
         bravo 0%nat
       = (Returned tt, w', evs)
       /\ flushes evs = List.length (runsOf evs)
       /\ terminals evs = 1%nat.
Proof.
  assert (Hevery : everyAttemptRan
                     (snd (networkCall
                             (env := scene [alpha; bravo; charlie])
                             (Some ["bravo"]) bravo 0%nat)))
    by (vm_compute; reflexivity).
  split; [exact Hevery|].
  destruct (one_flush_per_attempt_and_one_terminal_mark
              (env := scene [alpha; bravo; charlie]) (Some ["bravo"]) bravo
              0%nat eq_refl eq_refl Hevery)
    as (w' & evs & E & Hf & _ & _ & Ht & _).
  exists w', evs. repeat split; assumption.
Defined.

Lemma run_processes_the_selected_networks_witness :
  filter (selected (Some ["bravo"])) [alpha; bravo; charlie] = [bravo]
  /\ run (env := scene [alpha; bravo; charlie]) (Some ["bravo"]) 0%nat
     = executeSync (env := scene [alpha; bravo; charlie])
         (map processNetwork [bravo]) 1 0%nat.
Proof.
  split; [reflexivity|].
  rewrite (proj1 (run_processes_the_selected_networks
                    (env := scene [alpha; bravo; charlie]) ["bravo"] 0%nat
                    (fun n Hn _ =>
                       match Hn with
                       | or_introl E => or_intror (or_introl E)
                       | or_intror F => match F with end
                       end))).
  change (filter (selected (Some ["bravo"]))
            (configured (env := scene [alpha; bravo; charlie]) 0%nat))
    with [bravo].
  now destruct (executeSync (env := scene [alpha; bravo; charlie])
                  (map processNetwork [bravo]) 1 0%nat) as [[c w'] evs].
Defined.

Lemma unknown_name_aborts_the_run_witness :
  run (env := scene [alpha; bravo; charlie])
    (Some ["alpha"; "delta"; "zulu"]) 0%nat
  = (Returned tt, 0%nat, [TimeStamp ["Invalid network name:"; "delta"]]).
Proof.
  destruct (unknown_name_aborts_the_run
              (env := scene [alpha; bravo; charlie])
              ["alpha"; "delta"; "zulu"] 0%nat)
    as (pre & bad & post & Hsplit & Hpre & _ & _ & Hnotin & E & _).
  - exists "zulu". split; [right; right; now left|].
    split; [discriminate|].
    intros [H|[H|[H|[]]]]; discriminate.
  - destruct pre as [|p0 pre].
    + simpl in Hsplit. injection Hsplit as Hb _. exfalso.
      apply Hnotin. rewrite <- Hb. now left.
    + simpl in Hsplit. injection Hsplit as _ Hrest.
      destruct pre as [|p1 pre].
      * simpl in Hrest. injection Hrest as Hb _.
        rewrite E, <- Hb. reflexivity.
      * simpl in Hrest. injection Hrest as Hp1 _. exfalso.
        destruct (Hpre "delta") as [H|[H|[H|[H|[]]]]];
          [right; left; symmetry; exact Hp1| discriminate ..].
Defined.

Lemma default_retry_ceiling_is_two_witness :
  maxRetries alpha = 2
  /\ (attemptsOn "alpha"
        (snd (run (env := scene [alpha; bravo; charlie]) (Some []) 0%nat))
      <= 3)%nat.
Proof.
  destruct (default_retry_ceiling_is_two
              (env := scene [alpha; bravo; charlie]) (Some []) 0%nat alpha)
    as (Hmax & Hle & _).
  - now left.
  - repeat constructor; cbn; intuition discriminate.
  - exact I.
  - split; [exact Hmax|exact Hle].
Defined.

Lemma logSummary_count_and_details_witness :
  logs (env := scene [alpha])
       (logSummary health (settles false false ["cosmos1a"]))
       [OnHealth health (log ["Sent 1/2 transactions"]);
        OnHealth health (log ["TX 1:"; "a"]);
        OnHealth health (log ["TX 2:"; "b"])].
Proof.
  exact (proj2 (proj2 (proj2 (proj2 (proj2
    (logSummary_count_and_details (env := scene [alpha]) health
       (settles false false ["cosmos1a"])))))) eq_refl).
Defined.

(** C5, as stated, fails: alpha is processed, its runner fails three times,
    and the report is flushed three times. *)
Lemma one_flush_per_network_counterexample :
  filteredOut (Some []) alpha = false
  /\ disabled alpha = false
  /\ ~ flushesOnce (env := scene [alpha]) (Some []) alpha 0%nat.
Proof.
  split; [reflexivity|]. split; [reflexivity|].
  unfold flushesOnce. vm_compute. discriminate.
Qed.

(** C7, as stated, fails: "alpha" is in the filter and alpha is not
    disabled, but the filter also names "delta", so run processes nothing. *)
Lemma processes_exactly_selected_counterexample :
  ~ processesExactlySelected (env := scene [alpha; bravo; charlie])
      (Some ["alpha"; "delta"]) 0%nat.
Proof.
  intro H. destruct (H alpha (or_introl eq_refl)) as [Hload _].
  specialize (Hload eq_refl). vm_compute in Hload. exact Hload.
Qed.

(** C8, as stated, fails: the empty name matches no configured network, yet
    run goes on and processes charlie. *)
Lemma aborts_on_unknown_name_counterexample :
  ~ abortsOnUnknownName (env := scene [alpha; bravo; charlie])
      [""; "charlie"] 0%nat.
Proof.
  intro H. destruct H as [Hloads _].
  - exists "". split; [now left|].
    intros [E|[E|[E|[]]]]; discriminate.
  - vm_compute in Hloads. discriminate.
Qed.

(** C4.  The bot is no operator on echo: getNetworkRunner logs
    "Not an operator" and resolves to undefined, runWithRetry resolves to
    true, and the closure of run then reads didSucceed of undefined.  The
    closure raises a TypeError, after health.started and without any flush,
    and the TypeError leaves run. *)
Theorem no_runner_raises_out_of_run :
  runWithRetry (env := scene [echo]) echo health 0 [] 0%nat
  = (Returned RTrue, 1%nat,
     [NetworkLoad echo; TimeStamp ["Loaded"; "echo"];
      TimeStamp ["Bot address is"; "cosmos1bot"];
      TimeStamp ["Not an operator"]])
  /\ networkCall (env := scene [echo]) (Some []) echo 0%nat
     = (Thrown (TypeError
          "Cannot read properties of undefined (reading 'didSucceed')"),
        1%nat,
        [OnHealth health (started ["⚛"]);
         NetworkLoad echo; TimeStamp ["Loaded"; "echo"];
         TimeStamp ["Bot address is"; "cosmos1bot"];
         TimeStamp ["Not an operator"]])
  /\ run (env := scene [echo]) (Some []) 0%nat
     = (Thrown (TypeError
          "Cannot read properties of undefined (reading 'didSucceed')"),
        1%nat,
        [OnHealth health (started ["⚛"]);
         NetworkLoad echo; TimeStamp ["Loaded"; "echo"];
         TimeStamp ["Bot address is"; "cosmos1bot"];
         TimeStamp ["Not an operator"]]).
Proof. repeat split; vm_compute; reflexivity. Qed.

(** C6.  foxtrot and golf have no REST URL, so getNetworkRunner throws and
    networkRunner stays undefined.  With budget left (foxtrot, ceiling 2)
    runWithRetry reads forceFail of undefined; with no budget (golf,
    ceiling 0) logResults reads queryErrors of undefined.  Both raise a
    TypeError instead of retrying or ending gracefully. *)
Theorem absent_runner_is_dereferenced :
  maxRetries foxtrot = 2
  /\ runWithRetry (env := scene [foxtrot]) foxtrot health 0 [] 0%nat
     = (Thrown (TypeError
          "Cannot read properties of undefined (reading 'forceFail')"),
        1%nat,
        [NetworkLoad foxtrot; TimeStamp ["Loaded"; "foxtrot"];
         TimeStamp ["Bot address is"; "cosmos1bot"]])
  /\ maxRetries golf = 0
  /\ runWithRetry (env := scene [golf]) golf health 0 [] 0%nat
     = (Thrown (TypeError
          "Cannot read properties of undefined (reading 'queryErrors')"),
        1%nat,
        [NetworkLoad golf; TimeStamp ["Loaded"; "golf"];
         TimeStamp ["Bot address is"; "cosmos1bot"]]).
Proof. repeat split; vm_compute; reflexivity. Qed.

(** * The further properties in the concrete setting *)

Lemma getSigner_coin_type_witness :
  signerSlip44 (env := scene [india]) india (answer india) = 330
  /\ (exists evs,
        getSigner (env := scene [india]) india (answer india) 0%nat
        = (Returned 330, 0%nat, evs)
        /\ In (TimeStamp ["Using HD Path"; "m/44'/330'/0'/0/0"]) evs)
  /\ signerSlip44 (env := scene [kilo]) kilo (answer kilo) = 2147483648
  /\ exists msg,
       getSigner (env := scene [kilo]) kilo (answer kilo) 0%nat
       = (Thrown (Error msg), 0%nat, []).
Proof.
  split; [reflexivity|]. split.
  - destruct (proj1 (proj2 (proj2
      (getSigner_coin_type (env := scene [india]) india (answer india)
         0%nat)))) as (evs & E & _ & Hp).
    + vm_compute. split; [discriminate|reflexivity].
    + exists evs. split; [exact E|]. apply Hp. discriminate.
  - split; [reflexivity|].
    apply (proj2 (proj2 (proj2
      (getSigner_coin_type (env := scene [kilo]) kilo (answer kilo)
         0%nat)))).
    vm_compute. intros [_ H]. discriminate.
Defined.

Lemma getNetworkRunner_settles_by_first_failed_check_witness :
  operator (answer echo) = false
  /\ fst (fst (getNetworkRunner (env := scene [echo]) echo 0%nat))
     = Returned None
  /\ lastOf (snd (getNetworkRunner (env := scene [echo]) echo 0%nat))
     = Some (TimeStamp ["Not an operator"])
  /\ signable (env := scene [kilo]) kilo (answer kilo) = false
  /\ exists msg,
       getNetworkRunner (env := scene [kilo]) kilo 0%nat
       = (Thrown (Error msg), 1%nat,
          [NetworkLoad kilo; TimeStamp ["Loaded"; "kilo"]]).
Proof.
  split; [reflexivity|].
  destruct (proj1 (proj2 (proj2 (proj2 (proj2 (proj2
    (getNetworkRunner_settles_by_first_failed_check (env := scene [echo])
       echo 0%nat)))))) eq_refl eq_refl eq_refl) as (H1 & H2).
  split; [exact H1|]. split; [exact H2|]. split; [reflexivity|].
  exact (proj1 (proj2 (proj2 (proj2 (proj2
    (getNetworkRunner_settles_by_first_failed_check (env := scene [kilo])
       kilo 0%nat))))) eq_refl eq_refl).
Defined.

Lemma path_warning_only_off_the_preferred_path_witness :
  In (TimeStamp ["!! You are not using the preferred derivation path !!"])
     (snd (getNetworkRunner (env := scene [india]) india 0%nat))
  /\ signerSlip44 (env := scene [india]) india (answer india) = 330
  /\ exists c, chain_slip44 (answer india) = Some c /\ c <> 0
               /\ c <> signerSlip44 (env := scene [india]) india
                         (answer india).
Proof.
  assert (Hin : In (TimeStamp
                      ["!! You are not using the preferred derivation path !!"])
                   (snd (getNetworkRunner (env := scene [india]) india
                           0%nat)))
    by (vm_compute; repeat (first [left; reflexivity | right])).
  split; [exact Hin|]. split; [reflexivity|].
  exact (proj1 (proj2 (path_warning_only_off_the_preferred_path
                         (env := scene [india]) india 0%nat Hin))).
Defined.

Lemma success_ends_the_retries_witness :
  nth_error
    (runsOf (snd (runWithRetry (env := scene [charlie]) charlie health 0 []
                    0%nat))) 0
  = Some (ArgUndefined, settles true false [])
  /\ List.length
       (loadsOf (snd (runWithRetry (env := scene [charlie]) charlie health
                        0 [] 0%nat))) = 1%nat.
Proof.
  assert (H0 : nth_error
                 (runsOf (snd (runWithRetry (env := scene [charlie]) charlie
                                 health 0 [] 0%nat))) 0
               = Some (ArgUndefined, settles true false []))
    by (vm_compute; reflexivity).
  split; [exact H0|].
  exact (proj1 (proj2 (success_ends_the_retries (env := scene [charlie])
                         charlie health 0%nat 0%nat _ _ H0
                         (conj eq_refl eq_refl)))).
Defined.

Lemma retry_loads_runs_and_flushes_witness :
  flushes (snd (runWithRetry (env := scene [foxtrot]) foxtrot health 0 []
                  0%nat))
  = List.length
      (runsOf (snd (runWithRetry (env := scene [foxtrot]) foxtrot health 0
                      [] 0%nat))).
Proof.
  exact (proj1 (proj2 (proj2 (retry_loads_runs_and_flushes
                                (env := scene [foxtrot]) foxtrot health 0 []
                                0%nat)))).
Defined.

Lemma returned_history_lists_the_runs_witness :
  fst (fst (runWithRetry (env := scene [bravo]) bravo health 0 [] 0%nat))
  = Returned (RRunners [settles false false ["cosmos1b"];
                        settles false true ["cosmos1b"]])
  /\ [settles false false ["cosmos1b"]; settles false true ["cosmos1b"]]
     = map snd
         (runsOf (snd (runWithRetry (env := scene [bravo]) bravo health 0
                         [] 0%nat))).
Proof.
  assert (H0 : fst (fst (runWithRetry (env := scene [bravo]) bravo health 0
                           [] 0%nat))
               = Returned (RRunners [settles false false ["cosmos1b"];
                                     settles false true ["cosmos1b"]]))
    by (vm_compute; reflexivity).
  split; [exact H0|].
  exact (proj1 (returned_history_lists_the_runs (env := scene [bravo]) bravo
                  health 0 [] _ 0%nat H0)).
Defined.

Lemma no_retry_without_budget_witness :
  maxRetries juliet = -1
  /\ loadsOf (snd (runWithRetry (env := scene [juliet]) juliet health 0 []
                     0%nat)) = [juliet]
  /\ waitsOf (snd (runWithRetry (env := scene [juliet]) juliet health 0 []
                     0%nat)) = [].
Proof.
  split; [reflexivity|].
  destruct (no_retry_without_budget (env := scene [juliet]) juliet health
              0%nat) as (Hl & _ & Hw).
  - vm_compute. discriminate.
  - split; [exact Hl|exact Hw].
Defined.

Lemma never_restricted_to_nothing_witness :
  In (ArgAddresses ["cosmos1b"], settles false true ["cosmos1b"])
     (runsOf (snd (runWithRetry (env := scene [bravo]) bravo health 0 []
                     0%nat)))
  /\ restriction (ArgAddresses ["cosmos1b"]) <> Some [].
Proof.
  assert (Hin : In (ArgAddresses ["cosmos1b"],
                    settles false true ["cosmos1b"])
                   (runsOf (snd (runWithRetry (env := scene [bravo]) bravo
                                   health 0 [] 0%nat))))
    by (vm_compute; right; left; reflexivity).
  split; [exact Hin|].
  exact (proj2 (never_restricted_to_nothing (env := scene [bravo]) bravo
                  health 0 [] 0%nat _ _ Hin)).
Defined.

Lemma attempt_log_and_terminal_mark_witness :
  fst (fst (runWithRetry (env := scene [charlie]) charlie
              (newHealth (env := scene [charlie]) charlie) 0 [] 0%nat))
  = Returned (RRunners [settles true false []])
  /\ exists r,
       lastOf [settles true false []] = Some r
       /\ flushes (snd (processNetwork (env := scene [charlie]) charlie
                          0%nat))
          = flushes (snd (runWithRetry (env := scene [charlie]) charlie
                            (newHealth (env := scene [charlie]) charlie)
                            0 [] 0%nat)).
Proof.
  assert (H0 : fst (fst (runWithRetry (env := scene [charlie]) charlie
                           (newHealth (env := scene [charlie]) charlie)
                           0 [] 0%nat))
               = Returned (RRunners [settles true false []]))
    by (vm_compute; reflexivity).
  split; [exact H0|].
  destruct (attempt_log_and_terminal_mark (env := scene [charlie]) charlie
              0%nat _ H0) as (r & Hr & _ & Hf).
  exists r. split; [exact Hr|exact Hf].
Defined.


Lemma logResults_lines_in_order_witness :
  logs (env := scene [alpha])
       (logResults health (Some (settles false false ["cosmos1a"]))
          (Some "insufficient funds") None)
       [OnHealth health (addLogs []);
        OnHealth health (log ["Sent 1/2 transactions"]);
        OnHealth health (log ["TX 1:"; "a"]);
        OnHealth health (log ["TX 2:"; "b"]);
        OnHealth health (log ["Failed with error: insufficient funds"]);
        OnHealth health sendLog].
Proof.
  exact (proj1 (logResults_lines_in_order (env := scene [alpha]) health
                  (settles false false ["cosmos1a"])
                  (Some "insufficient funds") None)).
Defined.

Lemma successCount_bounds_witness :
  0 <= successCount (results (settles false false ["cosmos1a"])) <= 2.
Proof.
  exact (proj1 (proj2 (successCount_bounds (env := scene [alpha]) health
                         (settles false false ["cosmos1a"])))).
Defined.

Lemma only_enabled_named_networks_are_loaded_witness :
  In bravo
     (loadsOf (snd (run (env := scene [alpha; bravo; charlie])
                      (Some ["bravo"]) 0%nat)))
  /\ enabled bravo <> Some false.
Proof.
  assert (Hin : In bravo
                  (loadsOf (snd (run (env := scene [alpha; bravo; charlie])
                                   (Some ["bravo"]) 0%nat))))
    by (vm_compute; left; reflexivity).
  split; [exact Hin|].
  exact (proj1 (proj2 (only_enabled_named_networks_are_loaded
                         (env := scene [alpha; bravo; charlie])
                         (Some ["bravo"]) 0%nat bravo Hin))).
Defined.

Lemma blank_names_select_nothing_witness :
  run (env := scene [alpha; bravo; charlie]) (Some [""; ""]) 0%nat
  = (Returned tt, 0%nat, []).
Proof.
  apply (blank_names_select_nothing (env := scene [alpha; bravo; charlie])
           [""; ""] 0%nat).
  - discriminate.
  - intros n [<-|[<-|[]]]; reflexivity.
  - intros [H|[H|[H|[]]]]; discriminate.
Defined.

Lemma first_unknown_name_is_reported_witness :
  run (env := scene [alpha; bravo; charlie])
    (Some ["alpha"; ""; "delta"; "zulu"]) 0%nat
  = (Returned tt, 0%nat, [TimeStamp ["Invalid network name:"; "delta"]]).
Proof.
  apply (first_unknown_name_is_reported
           (env := scene [alpha; bravo; charlie]) ["alpha"; ""] ["zulu"]
           "delta" 0%nat).
  - intros n [<-|[<-|[]]]; [right; left; reflexivity|left; reflexivity].
  - discriminate.
  - intros [H|[H|[H|[]]]]; discriminate.
Defined.
